(** * Synthetic sensor-data generator: model and properties

    A shallow embedding of [tests/e2e/synthetic_data_generator.py] of the
    Predictive Asset Health platform: the failure-mode classes, the
    per-class sensor tables, base-value generation, the per-asset
    generation loop and the two Kafka delivery loops of [main].

    Modelling conventions.
    - Python floats are read as exact rationals ([Q]); Python ints as [Z].
    - The global [random] generator is a tape of draws consumed left to
      right; the position on the tape is part of the state.
    - [np.pi] and [np.sin] belong to numpy and are parameters.
    - Dictionaries are insertion-ordered association lists.  The
      dictionaries handed to [FailureMode.apply] are objects of a heap, so
      that copying and in-place update are distinguished.
    - The Kafka producer is an oracle telling which call raises; what it
      accepted is recorded in a trace together with sleeps and error logs.
    - An uncaught Python exception is the [Raise] outcome; the state reached
      when it was raised is kept.
    - A [datetime] is read as its Unix time in seconds, and adding a
      [timedelta] as adding seconds; [logger.info] has no effect that is
      modelled, [logger.error] is the event [LogError]. *)

From Stdlib Require Import ZArith QArith Qround Lqa Lia List String Ascii Bool.
From Stdlib Require Import Sorting.Sorted Sorting.Permutation Qminmax.
Import ListNotations.

Open Scope string_scope.
Open Scope Q_scope.

(** ** Python arithmetic *)

Definition Qltb (x y : Q) : bool :=
  (Qnum x * QDen y <? Qnum y * QDen x)%Z.

(** [min(a, b)] returns its first argument unless the second is smaller. *)
Definition py_min (a b : Q) : Q := if Qltb b a then b else a.

(** [max(a, b)] returns its first argument unless the second is larger. *)
Definition py_max (a b : Q) : Q := if Qltb a b then b else a.

(** Float [x % m] for a positive modulus. *)
Definition py_fmod (x m : Q) : Q := x - m * inject_Z (Qfloor (x / m)).

(** [int(x)]: truncation toward zero. *)
Definition py_int (x : Q) : Z :=
  if Qle_bool 0 x then Qfloor x else Qceiling x.

(** Truth value of a number: zero is false. *)
Definition truthy_Q (x : Q) : bool := negb (Qeq_bool x 0).
Definition truthy_Z (x : Z) : bool := negb (x =? 0)%Z.

(** Truth value of an [Optional]: [None] is false, and so is a false value. *)
Definition truthy_opt {A} (t : A -> bool) (o : option A) : bool :=
  match o with Some a => t a | None => false end.

Definition truthy_str (s : string) : bool :=
  match s with EmptyString => false | _ => true end.

(** [str.lower()] on ASCII text. *)
Definition lower_ascii (c : ascii) : ascii :=
  let n := N_of_ascii c in
  if ((65 <=? n) && (n <=? 90))%N then ascii_of_N (n + 32) else c.

Fixpoint lower (s : string) : string :=
  match s with
  | EmptyString => EmptyString
  | String c r => String (lower_ascii c) (lower r)
  end.

(** [range(n)]: empty when [n] is not positive. *)
Definition range (n : Z) : list Z := map Z.of_nat (seq 0 (Z.to_nat n)).

(** ** Dictionaries with string keys *)

Definition dict (V : Type) := list (string * V).

Fixpoint dict_get {V} (k : string) (d : dict V) : option V :=
  match d with
  | [] => None
  | (k', v) :: r => if String.eqb k k' then Some v else dict_get k r
  end.

Definition dict_mem {V} (k : string) (d : dict V) : bool :=
  match dict_get k d with Some _ => true | None => false end.

(** [d[k] = v]: an existing key keeps its place, a new one goes last. *)
Fixpoint dict_set {V} (k : string) (v : V) (d : dict V) : dict V :=
  match d with
  | [] => [(k, v)]
  | (k', v') :: r =>
      if String.eqb k k' then (k', v) :: r else (k', v') :: dict_set k v r
  end.

Definition keys {V} (d : dict V) : list string := map fst d.

(** ** Data model *)

Record AssetConfig := mkAsset {
  asset_id : string;
  plant : string;
  asset_class : string;
  vendor : string;
  failure_mode : option string;
  failure_start_hours : option Q;
  failure_severity : Q
}.

(** An asset declared without failure arguments takes the dataclass defaults. *)
Definition healthy_asset (id pl cl vd : string) : AssetConfig :=
  mkAsset id pl cl vd None None 1.0.

Inductive quality := GOOD | BAD | NO_DATA | SUSPECT.

(** One data point: the dictionary with keys [ts], [asset_id], [tag],
    [value] and [q]. *)
Record Reading := mkReading {
  ts : Z;
  r_asset_id : string;
  tag : string;
  value : option Q;
  q : quality
}.

Record SensorParams := mkParams {
  base : Q;
  noise : Q;
  range_lo : Q;
  range_hi : Q
}.

Definition sensor_configs : dict (dict SensorParams) :=
  [ ("pump",
     [ ("vibration_vel_mm_s", mkParams 5.0 0.5 0 50);
       ("bearing_temp_c", mkParams 60.0 2.0 20 120);
       ("motor_current_a", mkParams 75.0 3.0 0 150);
       ("discharge_pressure_bar", mkParams 15.0 1.0 0 30);
       ("ambient_temp_c", mkParams 25.0 2.0 10 40) ]);
    ("compressor",
     [ ("vibration_vel_mm_s", mkParams 8.0 1.0 0 50);
       ("bearing_temp_c", mkParams 80.0 3.0 30 130);
       ("motor_current_a", mkParams 90.0 5.0 0 200);
       ("discharge_pressure_bar", mkParams 25.0 2.0 0 50);
       ("ambient_temp_c", mkParams 25.0 2.0 10 40) ]);
    ("motor",
     [ ("vibration_vel_mm_s", mkParams 3.0 0.3 0 30);
       ("bearing_temp_c", mkParams 70.0 2.0 25 110);
       ("motor_current_a", mkParams 60.0 3.0 0 120);
       ("ambient_temp_c", mkParams 25.0 2.0 10 40) ]);
    ("fan",
     [ ("vibration_vel_mm_s", mkParams 4.0 0.5 0 25);
       ("bearing_temp_c", mkParams 50.0 2.0 20 90);
       ("motor_current_a", mkParams 45.0 2.0 0 100);
       ("ambient_temp_c", mkParams 25.0 2.0 10 40) ]) ].

Definition pump_config : dict SensorParams :=
  match dict_get "pump" sensor_configs with Some c => c | None => [] end.

(** [self.sensor_configs.get(asset_class.lower(), self.sensor_configs['pump'])] *)
Definition config_of (cls : string) : dict SensorParams :=
  match dict_get (lower cls) sensor_configs with
  | Some c => c
  | None => pump_config
  end.

(** The failure classes.  [FailureModeBase] is the base class, whose
    [apply] is the identity. *)
Inductive failure_class :=
  | FailureModeBase
  | BearingWearFailure
  | MisalignmentFailure
  | CavitationFailure.

(** [self.failure_modes] *)
Definition failure_modes : dict failure_class :=
  [ ("bearing_wear", BearingWearFailure);
    ("misalignment", MisalignmentFailure);
    ("cavitation", CavitationFailure) ].

(** An instance of a failure class: the class and [self.severity]. *)
Record FailureMode := mkFailure {
  fm_class : failure_class;
  severity : Q
}.

(** ** State, exceptions and the monad of the program *)

Inductive exn :=
  | ZeroDivisionError
  | KeyError
  | KafkaException.

Inductive result (A : Type) :=
  | Ok (a : A)
  | Raise (e : exn).
Arguments Ok {A} a.
Arguments Raise {A} e.

Definition loc := nat.

Inductive event :=
  | Produced (topic key : string) (payload : Reading)
  | Flushed
  | LogError
  | Slept (seconds : Q)
  | SavedFile (path : string) (content : list Reading).

Record world := mkWorld {
  heap : list (dict Q);      (* dictionary objects, addressed by position *)
  rng_pos : nat;             (* draws consumed from the random tape *)
  n_produce : nat;           (* calls of producer.produce so far *)
  n_flush : nat;             (* calls of producer.flush so far *)
  trace : list event         (* observable effects, oldest first *)
}.

Definition initial_world : world := mkWorld [] 0 0 0 [].

Definition M (A : Type) := world -> result A * world.

Definition ret {A} (a : A) : M A := fun w => (Ok a, w).

Definition bind {A B} (m : M A) (f : A -> M B) : M B :=
  fun w =>
    match m w with
    | (Ok a, w') => f a w'
    | (Raise e, w') => (Raise e, w')
    end.

Definition raise {A} (e : exn) : M A := fun w => (Raise e, w).

(** [try: body except Exception: handler] *)
Definition try_except {A} (body : M A) (handler : exn -> M A) : M A :=
  fun w =>
    match body w with
    | (Ok a, w') => (Ok a, w')
    | (Raise e, w') => handler e w'
    end.

Notation "x <- m ;; k" := (bind m (fun x => k))
  (at level 61, m at next level, right associativity).
Notation "' pat <- m ;; k" :=
  (bind m (fun x => match x with pat => k end))
  (at level 61, pat pattern, m at next level, right associativity).
Notation "m ;;; k" := (bind m (fun _ => k))
  (at level 61, right associativity).

(** [for x in xs: acc = body(acc, x)] *)
Fixpoint for_each {A S} (xs : list A) (body : S -> A -> M S) (acc : S) : M S :=
  match xs with
  | [] => ret acc
  | x :: r => acc' <- body acc x ;; for_each r body acc'
  end.

Definition when (b : bool) (m : M unit) : M unit := if b then m else ret tt.

(** Integer [a // b] and [a % b]. *)
Definition floordiv (a b : Z) : M Z :=
  if (b =? 0)%Z then raise ZeroDivisionError else ret (a / b)%Z.

Definition py_mod (a b : Z) : M Z :=
  if (b =? 0)%Z then raise ZeroDivisionError else ret (a mod b)%Z.

(** *** Heap of dictionaries *)

Definition set_heap (h : list (dict Q)) (w : world) : world :=
  mkWorld h (rng_pos w) (n_produce w) (n_flush w) (trace w).

Definition obj (l : loc) (w : world) : dict Q := nth l (heap w) [].

Fixpoint list_set {A} (n : nat) (a : A) (l : list A) : list A :=
  match l, n with
  | [], _ => []
  | _ :: r, O => a :: r
  | x :: r, S n' => x :: list_set n' a r
  end.

(** A new object holding [d]; its address is the next free position. *)
Definition alloc (d : dict Q) : M loc :=
  fun w => (Ok (List.length (heap w)), set_heap (heap w ++ [d])%list w).

Definition deref (l : loc) : M (dict Q) := fun w => (Ok (obj l w), w).

(** [d.copy()] *)
Definition copy (l : loc) : M loc := d <- deref l ;; alloc d.

(** [k in d] *)
Definition contains (l : loc) (k : string) : M bool :=
  fun w => (Ok (dict_mem k (obj l w)), w).

(** [d[k]] *)
Definition getitem (l : loc) (k : string) : M Q :=
  fun w =>
    match dict_get k (obj l w) with
    | Some v => (Ok v, w)
    | None => (Raise KeyError, w)
    end.

(** [d[k] = v] *)
Definition setitem (l : loc) (k : string) (v : Q) : M unit :=
  fun w => (Ok tt, set_heap (list_set l (dict_set k v (obj l w)) (heap w)) w).

(** [d[k] += x] and [d[k] *= x] *)
Definition iadd (l : loc) (k : string) (x : Q) : M unit :=
  v <- getitem l k ;; setitem l k (v + x).

Definition imul (l : loc) (k : string) (x : Q) : M unit :=
  v <- getitem l k ;; setitem l k (v * x).

(** *** Effects on the random tape and on the producer *)

Definition set_rng (n : nat) (w : world) : world :=
  mkWorld (heap w) n (n_produce w) (n_flush w) (trace w).

Definition emit (e : event) (w : world) : world :=
  mkWorld (heap w) (rng_pos w) (n_produce w) (n_flush w) (trace w ++ [e])%list.

Definition count_produce (w : world) : world :=
  mkWorld (heap w) (rng_pos w) (S (n_produce w)) (n_flush w) (trace w).

Definition count_flush (w : world) : world :=
  mkWorld (heap w) (rng_pos w) (n_produce w) (S (n_flush w)) (trace w).

Definition log_error : M unit := fun w => (Ok tt, emit LogError w).

(** [time.sleep(seconds)] *)
Definition sleep (seconds : Q) : M unit := fun w => (Ok tt, emit (Slept seconds) w).

Section Program.

(** numpy *)
Variable np_pi : Q.
Variable np_sin : Q -> Q.

(** The values the [random] module returns, in the order of the calls. *)
Variable tape : nat -> Q.

(** Whether the n-th call of [produce], resp. of [flush], raises. *)
Variable produce_raises : nat -> bool.
Variable flush_raises : nat -> bool.

Definition draw : M Q :=
  fun w => (Ok (tape (rng_pos w)), set_rng (S (rng_pos w)) w).

(** [random.gauss(mu, sigma)]: [mu + z * sigma] for a standard normal [z]. *)
Definition random_gauss (mu sigma : Q) : M Q :=
  z <- draw ;; ret (mu + z * sigma).

(** [random.random()] *)
Definition random_random : M Q := draw.

(** [random.uniform(a, b)]: [a + (b - a) * random()]. *)
Definition random_uniform (a b : Q) : M Q :=
  u <- random_random ;; ret (a + (b - a) * u).

(** [random.choice(seq)] for a non-empty [seq]: the draw is the index
    picked below [len(seq)]. *)
Definition random_choice {A} (seq : list A) (dflt : A) : M A :=
  k <- draw ;;
  ret (nth (Z.to_nat (Qfloor k mod Z.of_nat (List.length seq))) seq dflt).

(** [self.producer.produce(topic=..., key=..., value=json.dumps(data_point))] *)
Definition produce (topic key : string) (payload : Reading) : M unit :=
  fun w =>
    if produce_raises (n_produce w)
    then (Raise KafkaException, count_produce w)
    else (Ok tt, emit (Produced topic key payload) (count_produce w)).

(** [self.producer.flush()] *)
Definition flush : M unit :=
  fun w =>
    if flush_raises (n_flush w)
    then (Raise KafkaException, count_flush w)
    else (Ok tt, emit Flushed (count_flush w)).

(** ** The failure modes *)

(** [FailureMode.apply]: returns the mapping it was given. *)
Definition FailureMode_apply (self : FailureMode) (timestamp : Q)
    (base_values : loc) : M loc :=
  ret base_values.

Definition BearingWearFailure_apply (self : FailureMode) (timestamp : Q)
    (base_values : loc) : M loc :=
  let hours_since_start := timestamp / 3600 in
  let degradation_factor := py_min 1.0 (hours_since_start / 240) in
  modified <- copy base_values ;;
  b1 <- contains modified "vibration_vel_mm_s" ;;
  when b1 (iadd modified "vibration_vel_mm_s"
             ((5 + 10 * degradation_factor) * severity self)) ;;;
  b2 <- contains modified "bearing_temp_c" ;;
  when b2 (iadd modified "bearing_temp_c"
             ((10 + 20 * degradation_factor) * severity self)) ;;;
  ret modified.

Definition MisalignmentFailure_apply (self : FailureMode) (timestamp : Q)
    (base_values : loc) : M loc :=
  modified <- copy base_values ;;
  b1 <- contains modified "vibration_vel_mm_s" ;;
  when b1 (iadd modified "vibration_vel_mm_s" (3 * severity self)) ;;;
  b2 <- contains modified "bearing_temp_c" ;;
  when b2 (iadd modified "bearing_temp_c" (5 * severity self)) ;;;
  ret modified.

Definition CavitationFailure_apply (self : FailureMode) (timestamp : Q)
    (base_values : loc) : M loc :=
  modified <- copy base_values ;;
  b1 <- contains modified "discharge_pressure_bar" ;;
  when b1 (imul modified "discharge_pressure_bar" (1 - 0.3 * severity self)) ;;;
  b2 <- contains modified "vibration_vel_mm_s" ;;
  when b2 (u <- random_uniform 0 5 ;;
           let cavitation_noise := u * severity self in
           iadd modified "vibration_vel_mm_s" cavitation_noise) ;;;
  b3 <- contains modified "motor_current_a" ;;
  when b3 (u <- random_uniform (-5) 5 ;;
           let current_variation := u * severity self in
           iadd modified "motor_current_a" current_variation) ;;;
  ret modified.

(** Method dispatch on the class of the instance. *)
Definition apply (self : FailureMode) : Q -> loc -> M loc :=
  match fm_class self with
  | FailureModeBase => FailureMode_apply self
  | BearingWearFailure => BearingWearFailure_apply self
  | MisalignmentFailure => MisalignmentFailure_apply self
  | CavitationFailure => CavitationFailure_apply self
  end.

(** ** Base values *)

Definition daily_factor (timestamp : Q) : Q :=
  let hour_of_day := py_fmod timestamp (24 * 3600) / 3600 in
  1 + 0.1 * np_sin (2 * np_pi * hour_of_day / 24).

Definition weekly_factor (timestamp : Q) : Q :=
  let day_of_week := py_fmod timestamp (7 * 24 * 3600) / (24 * 3600) in
  1 + 0.05 * np_sin (2 * np_pi * day_of_week / 7).

(** The clamp of line 168 *)
Definition clamp (params : SensorParams) (v : Q) : Q :=
  py_max (range_lo params) (py_min (range_hi params) v).

(** Lines 159-169: the body of the loop over [config.items()]. *)
Definition sample_sensor (timestamp : Q) (values : dict Q)
    (entry : string * SensorParams) : M (dict Q) :=
  let '(sensor, params) := entry in
  let base_value :=
    base params * daily_factor timestamp * weekly_factor timestamp in
  noise <- random_gauss 0 (noise params) ;;
  let value := base_value + noise in
  let value := clamp params value in
  ret (dict_set sensor value values).

(** [SyntheticDataGenerator.generate_base_values]; the dictionary [values]
    is local to the call and built functionally. *)
Definition generate_base_values (asset_class : string) (timestamp : Q)
    : M (dict Q) :=
  let config := config_of asset_class in
  for_each config (sample_sensor timestamp) [].

(** ** Generation for one asset *)

(** Lines 180-183: the failure instance, if one is configured. *)
Definition init_failure_mode (asset : AssetConfig) : option FailureMode :=
  if truthy_opt truthy_str (failure_mode asset)
     && truthy_opt truthy_Q (failure_start_hours asset)
  then
    match failure_mode asset with
    | Some name =>
        match dict_get name failure_modes with
        | Some failure_class => Some (mkFailure failure_class (failure_severity asset))
        | None => None
        end
    | None => None
    end
  else None.

(** Lines 195-196: whether the failure is applied at step [i]. *)
Definition failure_active (asset : AssetConfig) (fm : option FailureMode)
    (i interval_seconds : Z) : option (FailureMode * Q) :=
  match fm, failure_start_hours asset with
  | Some f, Some fsh =>
      if truthy_Q fsh && Qle_bool (fsh * 3600) (inject_Z (i * interval_seconds))
      then Some (f, fsh) else None
  | _, _ => None
  end.

(** Lines 203-217: the data point of one item of the mapping. *)
Definition data_point_for (asset : AssetConfig) (unix_timestamp : Q)
    (data_points : list Reading) (item : string * Q) : M (list Reading) :=
  let '(sensor, value) := item in
  u <- random_random ;;
  '(value, quality) <-
     (if Qltb u 0.01 then
        quality <- random_choice [BAD; NO_DATA; SUSPECT] BAD ;;
        match quality with
        | NO_DATA => ret (None, quality)
        | _ => ret (Some value, quality)
        end
      else ret (Some value, GOOD)) ;;
  let data_point :=
    mkReading (py_int (unix_timestamp * 1000)) (asset_id asset)
              sensor value quality in
  ret (data_points ++ [data_point])%list.

(** Lines 202-217: one data point per item of the mapping. *)
Definition data_points_for (asset : AssetConfig) (unix_timestamp : Q)
    (items : dict Q) (data_points : list Reading) : M (list Reading) :=
  for_each items (data_point_for asset unix_timestamp) data_points.

(** Lines 188-221: the body of the loop over [range(total_points)]. *)
Definition generate_step (asset : AssetConfig) (fm : option FailureMode)
    (start_time : Q) (interval_seconds total_points : Z)
    (data_points : list Reading) (i : Z) : M (list Reading) :=
  let unix_timestamp := start_time + inject_Z (i * interval_seconds) in
  base_values <- generate_base_values (asset_class asset) unix_timestamp ;;
  base_values <-
    match failure_active asset fm i interval_seconds with
    | Some (f, fsh) =>
        let failure_duration := unix_timestamp - (start_time + fsh * 3600) in
        l <- alloc base_values ;;
        l' <- apply f failure_duration l ;;
        deref l'
    | None => ret base_values
    end ;;
  data_points <- data_points_for asset unix_timestamp base_values data_points ;;
  (* if i % (total_points // 10) == 0: logger.info(...) *)
  py_mod i (total_points / 10) ;;;
  ret data_points.

(** [SyntheticDataGenerator.generate_asset_data]; [start_time] is the Unix
    time of the start in seconds. *)
Definition generate_asset_data (asset : AssetConfig) (start_time : Q)
    (duration_hours interval_seconds : Z) : M (list Reading) :=
  let failure_mode := init_failure_mode asset in
  total_points <- floordiv (duration_hours * 3600) interval_seconds ;;
  for_each (range total_points)
    (generate_step asset failure_mode start_time interval_seconds total_points)
    [].

(** ** Delivery *)

(** [enumerate(xs)] *)
Definition enumerate {A} (xs : list A) : list (nat * A) :=
  combine (seq 0 (List.length xs)) xs.

(** Lines 230-242: the body of the loop of [publish_to_kafka]. *)
Definition publish_one (topic : string) (_ : unit) (e : nat * Reading)
    : M unit :=
  let '(i, data_point) := e in
  try_except
    (produce topic (r_asset_id data_point) data_point ;;;
     when (i mod 1000 =? 0)%nat flush)
    (fun e => log_error).

(** [SyntheticDataGenerator.publish_to_kafka] *)
Definition publish_to_kafka (data_points : list Reading) (topic : string)
    : M unit :=
  for_each (enumerate data_points) (publish_one topic) tt ;;;
  flush.

(** [list.sort(key=lambda x: x['ts'])]: ascending and stable. *)
Fixpoint insert_by_ts (x : Reading) (l : list Reading) : list Reading :=
  match l with
  | [] => [x]
  | y :: r => if (ts x <=? ts y)%Z then x :: l else y :: insert_by_ts x r
  end.

Fixpoint sort_by_ts (l : list Reading) : list Reading :=
  match l with
  | [] => []
  | x :: r => insert_by_ts x (sort_by_ts r)
  end.

(** Lines 340-343: the pause before a send. *)
Definition pace (last_ts : option Z) (data_point : Reading) : M unit :=
  when (truthy_opt truthy_Z last_ts)
    (match last_ts with
     | Some last =>
         let sleep_time := inject_Z (ts data_point - last) / 1000 in
         when (Qltb 0 sleep_time) (sleep (py_min sleep_time 60))
     | None => ret tt
     end).

(** Lines 340-350: the body of the loop of the real-time branch. *)
Definition send_paced (topic : string) (last_ts : option Z)
    (data_point : Reading) : M (option Z) :=
  pace last_ts data_point ;;;
  produce topic (r_asset_id data_point) data_point ;;;
  ret (Some (ts data_point)).

(** Lines 335-350: the real-time branch of [main]. *)
Definition publish_real_time (all_data_points : list Reading) (topic : string)
    : M unit :=
  let all_data_points := sort_by_ts all_data_points in
  for_each all_data_points (send_paced topic) None ;;;
  ret tt.

(** ** The driver *)

(** [create_demo_assets] *)
Definition create_demo_assets : list AssetConfig :=
  [ healthy_asset "PLANT1_PUMP_SULZER_001" "PLANT1" "PUMP" "SULZER";
    healthy_asset "PLANT1_PUMP_SULZER_002" "PLANT1" "PUMP" "SULZER";
    healthy_asset "PLANT2_PUMP_GRUNDFOS_001" "PLANT2" "PUMP" "GRUNDFOS";
    healthy_asset "PLANT2_COMPRESSOR_ATLAS_001" "PLANT2" "COMPRESSOR" "ATLAS";
    healthy_asset "PLANT3_MOTOR_ABB_001" "PLANT3" "MOTOR" "ABB";
    healthy_asset "PLANT3_MOTOR_ABB_002" "PLANT3" "MOTOR" "ABB";
    healthy_asset "PLANT1_FAN_EBMPAPST_001" "PLANT1" "FAN" "EBMPAPST";
    healthy_asset "PLANT2_FAN_EBMPAPST_001" "PLANT2" "FAN" "EBMPAPST";
    mkAsset "PLANT1_PUMP_SULZER_003" "PLANT1" "PUMP" "SULZER"
            (Some "bearing_wear") (Some 120) 0.8;
    mkAsset "PLANT2_COMPRESSOR_ATLAS_002" "PLANT2" "COMPRESSOR" "ATLAS"
            (Some "misalignment") (Some 72) 0.6;
    mkAsset "PLANT1_PUMP_GRUNDFOS_002" "PLANT1" "PUMP" "GRUNDFOS"
            (Some "cavitation") (Some 48) 0.7;
    mkAsset "PLANT3_MOTOR_SIEMENS_001" "PLANT3" "MOTOR" "SIEMENS"
            (Some "bearing_wear") (Some 168) 0.9;
    healthy_asset "PLANT3_PUMP_KSB_001" "PLANT3" "PUMP" "KSB";
    healthy_asset "PLANT1_COMPRESSOR_INGERSOLL_001" "PLANT1" "COMPRESSOR" "INGERSOLL";
    healthy_asset "PLANT2_MOTOR_WEG_001" "PLANT2" "MOTOR" "WEG" ].

(** The parsed command line. *)
Record Args := mkArgs {
  args_duration_hours : Z;
  args_interval_seconds : Z;
  args_topic : string;
  args_real_time : bool;
  args_output_file : option string
}.

(** Lines 314-321: generation over the fleet. *)
Definition generate_all (assets : list AssetConfig) (start_time : Q)
    (duration_hours interval_seconds : Z) : M (list Reading) :=
  for_each assets
    (fun all_data_points asset =>
       asset_data <-
         generate_asset_data asset start_time duration_hours interval_seconds ;;
       ret (all_data_points ++ asset_data)%list)
    [].

(** Lines 332-353: the Kafka branch. *)
Definition publish (args : Args) (all_data_points : list Reading) : M unit :=
  if args_real_time args
  then publish_real_time all_data_points (args_topic args)
  else publish_to_kafka all_data_points (args_topic args).

(** [json.dump(all_data_points, f)] into [path] *)
Definition save_file (path : string) (all_data_points : list Reading) : M unit :=
  fun w => (Ok tt, emit (SavedFile path all_data_points) w).

(** Lines 326-353: output of the accumulated data points. *)
Definition deliver (args : Args) (all_data_points : list Reading) : M unit :=
  match args_output_file args with
  | Some path =>
      if truthy_str path then save_file path all_data_points
      else publish args all_data_points
  | None => publish args all_data_points
  end.

(** The body of [main] from line 310 on, for a given fleet; [now] is the
    Unix time of [datetime.now()]. *)
Definition run (assets : list AssetConfig) (now : Q) (args : Args) : M unit :=
  let start_time := now - inject_Z (args_duration_hours args * 3600) in
  all_data_points <-
    generate_all assets start_time
      (args_duration_hours args) (args_interval_seconds args) ;;
  deliver args all_data_points.

Definition main (now : Q) (args : Args) : M unit :=
  run create_demo_assets now args.

End Program.

(** * Vocabulary of the statements *)

Definition in_range (p : SensorParams) (v : Q) : Prop :=
  range_lo p <= v /\ v <= range_hi p.

Fixpoint distinct (l : list string) : bool :=
  match l with
  | [] => true
  | k :: r => negb (existsb (String.eqb k) r) && distinct r
  end.

(** A sensor table is well formed when its sensors are distinct and every
    range has [min < max]. *)
Definition well_formed_config (c : dict SensorParams) : bool :=
  distinct (keys c)
  && forallb (fun e => Qltb (range_lo (snd e)) (range_hi (snd e))) c.

(** The effect of [if k in d: d[k] = f(d[k])] on the contents of [d]. *)
Definition update_if_present (k : string) (f : Q -> Q) (d : dict Q) : dict Q :=
  match dict_get k d with
  | Some v => dict_set k (f v) d
  | None => d
  end.

(** The world with one more object, and the address that object gets. *)
Definition push (d : dict Q) (w : world) : world :=
  set_heap (heap w ++ [d])%list w.

Definition top (w : world) : loc := List.length (heap w).

(** The sensor tags a failure class tests with [in]. *)
Definition recognized (c : failure_class) (k : string) : bool :=
  match c with
  | FailureModeBase => false
  | BearingWearFailure | MisalignmentFailure =>
      existsb (String.eqb k) ["vibration_vel_mm_s"; "bearing_temp_c"]
  | CavitationFailure =>
      existsb (String.eqb k)
        ["discharge_pressure_bar"; "vibration_vel_mm_s"; "motor_current_a"]
  end.

(** The ramp of the bearing-wear model after [t] seconds. *)
Definition degradation (t : Q) : Q := py_min 1.0 (t / 3600 / 240).

(** Contents of the mapping returned by the bearing-wear and misalignment
    models, in terms of the contents [d] of the one they are given. *)
Definition bearing_wear_values (sev t : Q) (d : dict Q) : dict Q :=
  update_if_present "bearing_temp_c"
    (fun v => v + (10 + 20 * degradation t) * sev)
    (update_if_present "vibration_vel_mm_s"
       (fun v => v + (5 + 10 * degradation t) * sev) d).

Definition misalignment_values (sev : Q) (d : dict Q) : dict Q :=
  update_if_present "bearing_temp_c" (fun v => v + 5 * sev)
    (update_if_present "vibration_vel_mm_s" (fun v => v + 3 * sev) d).

(** What a failure instance makes of the contents [d] of the mapping it
    is given after [t] seconds: [d'] are the contents of the mapping it
    returns.  The cavitation model draws random numbers; for it only the
    frame is described. *)
Definition adjusts (f : FailureMode) (t : Q) (d d' : dict Q) : Prop :=
  keys d' = keys d
  /\ (forall k, recognized (fm_class f) k = false -> dict_get k d' = dict_get k d)
  /\ match fm_class f with
     | FailureModeBase => d' = d
     | BearingWearFailure => d' = bearing_wear_values (severity f) t d
     | MisalignmentFailure => d' = misalignment_values (severity f) d
     | CavitationFailure => True
     end.

(** A data point made from the item [(sensor, v)] of a mapping: the value
    is dropped exactly when the quality is [NO_DATA], and is [v] otherwise. *)
Definition emitted (asset : AssetConfig) (unix_timestamp : Q)
    (item : string * Q) (r : Reading) : Prop :=
  ts r = py_int (unix_timestamp * 1000)
  /\ r_asset_id r = asset_id asset
  /\ tag r = fst item
  /\ ((q r = NO_DATA /\ value r = None)
      \/ (q r <> NO_DATA /\ value r = Some (snd item))).

(** The invariant of the data model. *)
Definition quality_invariant (r : Reading) : Prop :=
  value r = None <-> q r = NO_DATA.

(** The pause the pacing code takes before sending [data_point] when the
    previous send had timestamp [last_ts]: no event when it does not sleep. *)
Definition pause (last_ts : option Z) (data_point : Reading) : list event :=
  match last_ts with
  | Some last =>
      if truthy_Z last && Qltb 0 (inject_Z (ts data_point - last) / 1000)
      then [Slept (py_min (inject_Z (ts data_point - last) / 1000) 60)]
      else []
  | None => []
  end.

(** The events of a paced delivery of [l] on [topic] in which no call raises. *)
Fixpoint paced_events (topic : string) (last_ts : option Z) (l : list Reading)
    : list event :=
  match l with
  | [] => []
  | x :: r =>
      (pause last_ts x ++ Produced topic (r_asset_id x) x
         :: paced_events topic (Some (ts x)) r)%list
  end.

(** The payloads delivered, and the time slept, in a list of events. *)
Fixpoint payloads (es : list event) : list Reading :=
  match es with
  | [] => []
  | Produced _ _ r :: es' => r :: payloads es'
  | _ :: es' => payloads es'
  end.

Fixpoint total_sleep (es : list event) : Q :=
  match es with
  | [] => 0
  | Slept s :: es' => s + total_sleep es'
  | _ :: es' => total_sleep es'
  end.

(** [min(60, dt / 1000)] summed over the consecutive pairs of a list, the
    first pair being made with [last]. *)
Fixpoint ideal_sleep (last : Z) (l : list Reading) : Q :=
  match l with
  | [] => 0
  | x :: r =>
      Qmin 60 (inject_Z (ts x - last) / 1000) + ideal_sleep (ts x) r
  end.

Definition sorted_by_ts (l : list Reading) : Prop :=
  Sorted (fun a b => (ts a <= ts b)%Z) l.

(** The records a producer accepts out of [l], when the first of them is
    sent by its [n]-th call and every record is sent once. *)
Fixpoint accepted (produce_raises : nat -> bool) (n : nat) (l : list Reading)
    : list Reading :=
  match l with
  | [] => []
  | x :: r =>
      if produce_raises n then accepted produce_raises (S n) r
      else x :: accepted produce_raises (S n) r
  end.

(** The sum of [min(60, dt / 1000)] over the consecutive pairs of [l]. *)
Definition ideal_total (l : list Reading) : Q :=
  match l with
  | [] => 0
  | x :: r => ideal_sleep (ts x) r
  end.



(** What one step of the generation loop adds for step [i]: data points
    made, item by item, from the base values of the step, adjusted by the
    failure instance when it is active. *)
Definition step_output (asset : AssetConfig) (fm : option FailureMode)
    (start_time : Q) (interval i : Z) (rs : list Reading) : Prop :=
  exists base_values adjusted,
    keys base_values = keys (config_of (asset_class asset))
    /\ (forall s v, dict_get s base_values = Some v ->
          exists p, dict_get s (config_of (asset_class asset)) = Some p
                    /\ in_range p v)
    /\ match failure_active asset fm i interval with
       | Some (f, fsh) =>
           adjusts f (start_time + inject_Z (i * interval)
                      - (start_time + fsh * 3600)) base_values adjusted
       | None => adjusted = base_values
       end
    /\ Forall2 (emitted asset (start_time + inject_Z (i * interval)))
         adjusted rs.




(** A data point whose value, if it has one, lies within the range of its
    sensor in the table of the class [cls]. *)
Definition within_range (cls : string) (r : Reading) : Prop :=
  forall v, value r = Some v ->
    exists p, dict_get (tag r) (config_of cls) = Some p /\ in_range p v.

(** Contents of the mapping the cavitation model returns for contents
    [d], and the position on the tape after the call, when the call starts
    at position [pos]: one draw for the vibration spike and one for the
    current variation, each taken only if the sensor is present. *)
Definition cavitation_values (tape : nat -> Q) (sev : Q) (pos : nat)
    (d : dict Q) : dict Q * nat :=
  let d1 :=
    update_if_present "discharge_pressure_bar" (fun v => v * (1 - 0.3 * sev)) d in
  let '(d2, p2) :=
    if dict_mem "vibration_vel_mm_s" d1
    then (update_if_present "vibration_vel_mm_s"
            (fun v => v + (0 + (5 - 0) * tape pos) * sev) d1, S pos)
    else (d1, pos) in
  if dict_mem "motor_current_a" d2
  then (update_if_present "motor_current_a"
          (fun v => v + (-5 + (5 - -5) * tape p2) * sev) d2, S p2)
  else (d2, p2).

(** The number of error messages logged, and the pauses taken, in a
    list of events. *)
Fixpoint errors_logged (es : list event) : nat :=
  match es with
  | [] => 0
  | LogError :: es' => S (errors_logged es')
  | _ :: es' => errors_logged es'
  end.

Fixpoint sleeps (es : list event) : list Q :=
  match es with
  | [] => []
  | Slept s :: es' => s :: sleeps es'
  | _ :: es' => sleeps es'
  end.

(** The indices from [s] on, [n] of them, at which [publish_to_kafka]
    flushes after a successful [produce]. *)
Definition flush_points (s n : nat) : list nat :=
  filter (fun i => (i mod 1000 =? 0)%nat) (seq s n).


(** The number of data points of [out] whose quality is not [GOOD]. *)
Definition corrupted (out : list Reading) : nat :=
  List.length
    (filter (fun r => match q r with GOOD => false | _ => true end) out).

(** * Sample inputs *)

(** A stand-in for [np.sin] that makes both cycles flat. *)
Definition flat (x : Q) : Q := 0.

(** A tape for a healthy run: every noise draw is [0] and every
    [random.random()] is [0.5], so that a step takes ten draws. *)
Definition calm_tape (n : nat) : Q :=
  if (n mod 10 <? 5)%nat then 0 else 0.5.

(** A tape on which some data points are corrupted. *)
Definition mixed_tape (n : nat) : Q :=
  match (n mod 4)%nat with
  | 0%nat => 0
  | 1%nat => 1
  | 2%nat => 0.5
  | _ => 2
  end.

(** A producer that never raises. *)
Definition never (n : nat) : bool := false.

(** A producer whose first call raises. *)
Definition first_call (n : nat) : bool := (n =? 0)%nat.

Definition pump_A : AssetConfig := healthy_asset "PUMP_A" "PLANT1" "pump" "SULZER".

Definition pump_B : AssetConfig :=
  mkAsset "PUMP_B" "PLANT1" "pump" "SULZER" (Some "bearing_wear") (Some 0) 1.0.

Definition epoch_2023 : Q := 1700000000.

(** A state whose heap holds one mapping of pump values, at address 0. *)
Definition pump_values : dict Q :=
  [ ("vibration_vel_mm_s", 5); ("bearing_temp_c", 60); ("motor_current_a", 75);
    ("discharge_pressure_bar", 15); ("ambient_temp_c", 25) ].

Definition pump_world : world := push pump_values initial_world.

Definition reading_at (t : Z) : Reading :=
  mkReading t "PUMP_A" "ambient_temp_c" (Some 25) GOOD.

(** A pump whose bearing wear starts one hour into the run. *)
Definition pump_C : AssetConfig :=
  mkAsset "PUMP_C" "PLANT1" "pump" "SULZER" (Some "bearing_wear") (Some 1) 1.0.




(** The motor of the demo fleet whose bearing wear is declared to start
    168 hours into the run. *)
Definition late_motor : AssetConfig :=
  mkAsset "PLANT3_MOTOR_SIEMENS_001" "PLANT3" "MOTOR" "SIEMENS"
          (Some "bearing_wear") (Some 168) 0.9.

(** * Properties *)

(** ** Arithmetic of the Python operators *)

Lemma Qltb_lt (x y : Q) : Qltb x y = true <-> x < y.
Proof. unfold Qltb, Qlt. apply Z.ltb_lt. Qed.

Lemma Qltb_ge (x y : Q) : Qltb x y = false <-> y <= x.
Proof. unfold Qltb, Qle. rewrite Z.ltb_ge. reflexivity. Qed.

Lemma py_min_cases (a b : Q) :
  (b < a /\ py_min a b = b) \/ (a <= b /\ py_min a b = a).
Proof.
  unfold py_min. destruct (Qltb b a) eqn:E.
  - left. split; [apply Qltb_lt; exact E | reflexivity].
  - right. split; [apply Qltb_ge; exact E | reflexivity].
Qed.

Lemma py_max_cases (a b : Q) :
  (a < b /\ py_max a b = b) \/ (b <= a /\ py_max a b = a).
Proof.
  unfold py_max. destruct (Qltb a b) eqn:E.
  - left. split; [apply Qltb_lt; exact E | reflexivity].
  - right. split; [apply Qltb_ge; exact E | reflexivity].
Qed.

Lemma clamp_in_range (p : SensorParams) (v : Q) :
  range_lo p <= range_hi p ->
  range_lo p <= clamp p v /\ clamp p v <= range_hi p.
Proof.
  intros Hp. unfold clamp.
  destruct (py_min_cases (range_hi p) v) as [[H1 E1] | [H1 E1]];
    rewrite E1;
    destruct (py_max_cases (range_lo p) v) as [[H2 E2] | [H2 E2]];
    destruct (py_max_cases (range_lo p) (range_hi p)) as [[H3 E3] | [H3 E3]];
    try rewrite E2; try rewrite E3; split; lra.
Qed.


(** ** Dictionaries *)

Lemma dict_get_set_same {V} (k : string) (v : V) (d : dict V) :
  dict_get k (dict_set k v d) = Some v.
Proof.
  induction d as [| [k' v'] r IH]; simpl.
  - rewrite String.eqb_refl. reflexivity.
  - destruct (String.eqb k k') eqn:E; simpl; rewrite E; auto.
Qed.

Lemma dict_get_set_other {V} (k k' : string) (v : V) (d : dict V) :
  k' <> k -> dict_get k' (dict_set k v d) = dict_get k' d.
Proof.
  intros Hne. induction d as [| [k0 v0] r IH]; simpl.
  - destruct (String.eqb k' k) eqn:E; [apply String.eqb_eq in E; contradiction | reflexivity].
  - destruct (String.eqb k k0) eqn:E; simpl.
    + apply String.eqb_eq in E. subst k0.
      destruct (String.eqb k' k) eqn:E'; [apply String.eqb_eq in E'; contradiction | reflexivity].
    + destruct (String.eqb k' k0); auto.
Qed.

Lemma dict_get_In {V} (k : string) (v : V) (d : dict V) :
  dict_get k d = Some v -> In (k, v) d.
Proof.
  induction d as [| [k' v'] r IH]; simpl; [discriminate |].
  destruct (String.eqb k k') eqn:E.
  - apply String.eqb_eq in E. intros [= ->]. left. congruence.
  - intros H. right. auto.
Qed.

Lemma dict_get_keys {V} (k : string) (d : dict V) :
  In k (keys d) <-> dict_get k d <> None.
Proof.
  induction d as [| [k' v'] r IH]; simpl.
  - split; [tauto | congruence].
  - destruct (String.eqb k k') eqn:E.
    + apply String.eqb_eq in E. subst. split; [congruence | auto].
    + apply String.eqb_neq in E. rewrite <- IH. split; [intros [H | H]; congruence || auto | auto].
Qed.

(** Storing under a present key keeps the keys and their order. *)
Lemma keys_set_present {V} (k : string) (v : V) (d : dict V) :
  In k (keys d) -> keys (dict_set k v d) = keys d.
Proof.
  induction d as [| [k' v'] r IH]; simpl; [tauto |].
  intros H. destruct (String.eqb k k') eqn:E; simpl; [reflexivity |].
  apply String.eqb_neq in E. f_equal. apply IH.
  destruct H as [H | H]; [congruence | exact H].
Qed.

(** Storing under a new key appends it. *)
Lemma keys_set_absent {V} (k : string) (v : V) (d : dict V) :
  ~ In k (keys d) -> keys (dict_set k v d) = (keys d ++ [k])%list.
Proof.
  induction d as [| [k' v'] r IH]; simpl; [reflexivity |].
  intros H. destruct (String.eqb k k') eqn:E; simpl.
  - apply String.eqb_eq in E. subst. tauto.
  - f_equal. apply IH. tauto.
Qed.

Lemma distinct_NoDup (l : list string) : distinct l = true -> NoDup l.
Proof.
  induction l as [| k r IH]; simpl; intros H; constructor.
  - apply andb_prop in H. destruct H as [H _].
    intros Hin. apply negb_true_iff in H.
    assert (existsb (String.eqb k) r = true) as E.
    { apply existsb_exists. exists k. split; [exact Hin | apply String.eqb_refl]. }
    congruence.
  - apply IH. apply andb_prop in H. tauto.
Qed.

Lemma dict_get_of_In {V} (k : string) (v : V) (d : dict V) :
  NoDup (keys d) -> In (k, v) d -> dict_get k d = Some v.
Proof.
  induction d as [| [k' v'] r IH]; simpl; [tauto |].
  intros Hnd [H | H].
  - inversion H; subst. rewrite String.eqb_refl. reflexivity.
  - inversion Hnd as [| ? ? Hnotin Hnd']; subst.
    destruct (String.eqb k k') eqn:E.
    + apply String.eqb_eq in E. subst k'. exfalso. apply Hnotin.
      change (In (fst (k, v)) (map fst r)). apply in_map. exact H.
    + apply IH; assumption.
Qed.

(** ** The sensor tables *)

Lemma sensor_configs_well_formed :
  forallb well_formed_config (map snd sensor_configs) = true.
Proof. reflexivity. Qed.

Lemma config_of_listed (cls : string) :
  In (config_of cls) (map snd sensor_configs).
Proof.
  unfold config_of. destruct (dict_get (lower cls) sensor_configs) eqn:E.
  - apply dict_get_In in E.
    change d with (snd (lower cls, d)). apply in_map. exact E.
  - simpl. auto.
Qed.

Lemma config_of_well_formed (cls : string) :
  well_formed_config (config_of cls) = true.
Proof.
  pose proof sensor_configs_well_formed as H.
  rewrite forallb_forall in H. apply H. apply config_of_listed.
Qed.

Lemma well_formed_entry (c : dict SensorParams) (s : string) (p : SensorParams) :
  well_formed_config c = true -> In (s, p) c ->
  dict_get s c = Some p /\ range_lo p < range_hi p.
Proof.
  unfold well_formed_config. intros H Hin.
  apply andb_prop in H. destruct H as [Hd Hr]. split.
  - apply dict_get_of_In; [apply distinct_NoDup; exact Hd | exact Hin].
  - rewrite forallb_forall in Hr. apply Qltb_lt. exact (Hr _ Hin).
Qed.

(** ** Reasoning in the monad *)

Lemma bind_Ok {A B} (m : M A) (f : A -> M B) (w w' : world) (a : A) :
  m w = (Ok a, w') -> bind m f w = f a w'.
Proof. unfold bind. intros ->. reflexivity. Qed.

Lemma bind_Raise {A B} (m : M A) (f : A -> M B) (w w' : world) (e : exn) :
  m w = (Raise e, w') -> bind m f w = (Raise e, w').
Proof. unfold bind. intros ->. reflexivity. Qed.

Lemma set_rng_same (w : world) : set_rng (rng_pos w) w = w.
Proof. destruct w. reflexivity. Qed.

(** ** Base values *)

Section BaseValues.

Variables (np_pi : Q) (np_sin : Q -> Q) (tape : nat -> Q).


(** One sensor: a single draw, and the clamped value stored. *)
Lemma sample_sensor_eq (t : Q) (values : dict Q) (s : string)
    (p : SensorParams) (w : world) :
  exists v,
    (sample_sensor np_pi np_sin tape t) values (s, p) w
    = (Ok (dict_set s (clamp p v) values), set_rng (S (rng_pos w)) w).
Proof. eexists. reflexivity. Qed.

Lemma base_values_loop (cfg : dict SensorParams) (t : Q) :
  forall (rem : dict SensorParams) (acc : dict Q) (w : world),
    (forall s p, In (s, p) rem ->
       dict_get s cfg = Some p /\ range_lo p < range_hi p) ->
    (forall s v, dict_get s acc = Some v ->
       exists p, dict_get s cfg = Some p /\ in_range p v) ->
    exists values,
      for_each rem (sample_sensor np_pi np_sin tape t) acc w
      = (Ok values, set_rng (rng_pos w + List.length rem) w)
      /\ (forall s v, dict_get s values = Some v ->
            exists p, dict_get s cfg = Some p /\ in_range p v)
      /\ (forall s, In s (keys acc) \/ In s (keys rem) -> In s (keys values))
      /\ (NoDup (keys acc ++ keys rem) ->
            keys values = (keys acc ++ keys rem)%list).
Proof.
  induction rem as [| [s p] r IH]; intros acc w Hrem Hacc.
  - exists acc. simpl. rewrite Nat.add_0_r, set_rng_same.
    split; [reflexivity |]. split; [exact Hacc |]. split.
    + intros s [H | []]. exact H.
    + intros _. rewrite app_nil_r. reflexivity.
  - destruct (sample_sensor_eq t acc s p w) as [v Hv].
    destruct (Hrem s p (or_introl eq_refl)) as [Hget Hlt].
    destruct (IH (dict_set s (clamp p v) acc) (set_rng (S (rng_pos w)) w))
      as (values & Hrun & Hin & Hkeys & Hord).
    { intros s' p' H. apply Hrem. right. exact H. }
    { intros s' v' H. destruct (string_dec s' s) as [-> | Hne].
      - rewrite dict_get_set_same in H. injection H as <-.
        exists p. split; [exact Hget |].
        apply clamp_in_range. lra.
      - rewrite dict_get_set_other in H by exact Hne. auto. }
    exists values. simpl for_each. rewrite (bind_Ok _ _ _ _ _ Hv), Hrun.
    split; [| split; [| split]].
    + unfold set_rng. simpl. do 2 f_equal. lia.
    + exact Hin.
    + intros s' H. apply Hkeys.
      destruct (in_dec string_dec s (keys acc)) as [Hs | Hs].
      * rewrite keys_set_present by exact Hs.
        destruct H as [H | [H | H]]; auto. simpl in H. subst. auto.
      * rewrite keys_set_absent by exact Hs.
        destruct H as [H | [H | H]]; [left | left | right; exact H];
          apply in_or_app; auto. simpl in H. subst. right. left. reflexivity.
    + intros Hnd. rewrite Hord.
      * rewrite keys_set_absent.
        -- rewrite <- app_assoc. reflexivity.
        -- intros Hs. simpl in Hnd. apply NoDup_remove_2 in Hnd.
           apply Hnd. apply in_or_app. auto.
      * rewrite keys_set_absent.
        -- rewrite <- app_assoc. exact Hnd.
        -- intros Hs. simpl in Hnd. apply NoDup_remove_2 in Hnd.
           apply Hnd. apply in_or_app. auto.
Qed.

(** Base-value generation always returns: one draw per sensor, the
    sensors of the class in table order, each value within its range. *)
Lemma generate_base_values_spec (cls : string) (t : Q) (w : world) :
  exists values,
    generate_base_values np_pi np_sin tape cls t w
    = (Ok values, set_rng (rng_pos w + List.length (config_of cls)) w)
    /\ keys values = keys (config_of cls)
    /\ (forall s v, dict_get s values = Some v ->
          exists p, dict_get s (config_of cls) = Some p /\ in_range p v).
Proof.
  pose proof (config_of_well_formed cls) as Hwf.
  destruct (base_values_loop (config_of cls) t (config_of cls) [] w)
    as (values & Hrun & Hin & _ & Hord).
  - intros s p H. apply well_formed_entry; assumption.
  - intros s v H. discriminate.
  - exists values. split; [exact Hrun |]. split; [| exact Hin].
    apply Hord. simpl. apply distinct_NoDup.
    unfold well_formed_config in Hwf. apply andb_prop in Hwf. tauto.
Qed.

End BaseValues.

(** ** Conditional updates of a dictionary *)

Lemma keys_update_if_present (k : string) (f : Q -> Q) (d : dict Q) :
  keys (update_if_present k f d) = keys d.
Proof.
  unfold update_if_present. destruct (dict_get k d) eqn:E; [| reflexivity].
  apply keys_set_present. apply dict_get_keys. congruence.
Qed.

Lemma get_update_same (k : string) (f : Q -> Q) (d : dict Q) :
  dict_get k (update_if_present k f d) = option_map f (dict_get k d).
Proof.
  unfold update_if_present. destruct (dict_get k d) eqn:E; simpl.
  - apply dict_get_set_same.
  - exact E.
Qed.

Lemma get_update_other (k k' : string) (f : Q -> Q) (d : dict Q) :
  k' <> k -> dict_get k' (update_if_present k f d) = dict_get k' d.
Proof.
  intros H. unfold update_if_present. destruct (dict_get k d); [| reflexivity].
  apply dict_get_set_other. exact H.
Qed.

(** ** Objects of the heap *)

Lemma list_set_last {A} (h : list A) (x y : A) :
  list_set (List.length h) y (h ++ [x]) = (h ++ [y])%list.
Proof. induction h as [| a r IH]; simpl; [reflexivity | rewrite IH; reflexivity]. Qed.

Lemma obj_top (d : dict Q) (w : world) : obj (top w) (push d w) = d.
Proof. unfold obj, top, push. simpl. apply nth_middle. Qed.

(** Allocation leaves the objects already there as they are. *)
Lemma obj_push_below (l : loc) (d : dict Q) (w : world) :
  (l < List.length (heap w))%nat -> obj l (push d w) = obj l w.
Proof. intros H. unfold obj, push. simpl. apply app_nth1. exact H. Qed.

Lemma alloc_eq (d : dict Q) (w : world) : alloc d w = (Ok (top w), push d w).
Proof. reflexivity. Qed.

Lemma copy_eq (l : loc) (w : world) : copy l w = (Ok (top w), push (obj l w) w).
Proof. reflexivity. Qed.

Lemma contains_top (k : string) (d : dict Q) (w : world) :
  contains (top w) k (push d w) = (Ok (dict_mem k d), push d w).
Proof. unfold contains. rewrite obj_top. reflexivity. Qed.

Lemma setitem_top (k : string) (v : Q) (d : dict Q) (w : world) :
  setitem (top w) k v (push d w) = (Ok tt, push (dict_set k v d) w).
Proof.
  unfold setitem. rewrite obj_top. unfold push, top, set_heap. simpl.
  rewrite list_set_last. reflexivity.
Qed.

Lemma getitem_top (k : string) (v : Q) (d : dict Q) (w : world) :
  dict_get k d = Some v -> getitem (top w) k (push d w) = (Ok v, push d w).
Proof. intros H. unfold getitem. rewrite obj_top, H. reflexivity. Qed.

Lemma guarded_update_then {B} (k : string) (f : Q -> Q) (d : dict Q)
    (w : world) (rest : M B) :
  (b <- contains (top w) k ;;
   when b (v <- getitem (top w) k ;; setitem (top w) k (f v)) ;;;
   rest) (push d w)
  = rest (push (update_if_present k f d) w).
Proof.
  rewrite (bind_Ok _ _ _ _ _ (contains_top k d w)).
  unfold update_if_present, dict_mem. destruct (dict_get k d) as [v |] eqn:E; simpl.
  - unfold bind at 1.
    rewrite (bind_Ok _ _ _ _ _ (getitem_top k v d w E)), setitem_top. reflexivity.
  - reflexivity.
Qed.

(** ** The failure models on the heap *)

Lemma FailureMode_apply_eq (self : FailureMode) (t : Q) (l : loc) (w : world) :
  FailureMode_apply self t l w = (Ok l, w).
Proof. reflexivity. Qed.

Lemma BearingWearFailure_apply_eq (self : FailureMode) (t : Q) (l : loc)
    (w : world) :
  BearingWearFailure_apply self t l w
  = (Ok (top w), push (bearing_wear_values (severity self) t (obj l w)) w).
Proof.
  unfold BearingWearFailure_apply.
  rewrite (bind_Ok _ _ _ _ _ (copy_eq l w)).
  unfold iadd. rewrite guarded_update_then, guarded_update_then.
  reflexivity.
Qed.

Lemma MisalignmentFailure_apply_eq (self : FailureMode) (t : Q) (l : loc)
    (w : world) :
  MisalignmentFailure_apply self t l w
  = (Ok (top w), push (misalignment_values (severity self) (obj l w)) w).
Proof.
  unfold MisalignmentFailure_apply.
  rewrite (bind_Ok _ _ _ _ _ (copy_eq l w)).
  unfold iadd. rewrite guarded_update_then, guarded_update_then.
  reflexivity.
Qed.

Section Cavitation.

Variable tape : nat -> Q.

Lemma random_uniform_eq (a b : Q) (w : world) :
  random_uniform tape a b w
  = (Ok (a + (b - a) * tape (rng_pos w)), set_rng (S (rng_pos w)) w).
Proof. reflexivity. Qed.

Lemma guarded_draw_then {B} (k : string) (a b sev : Q) (d : dict Q)
    (w : world) (rest : M B) :
  (c <- contains (top w) k ;;
   when c (u <- random_uniform tape a b ;; iadd (top w) k (u * sev)) ;;;
   rest) (push d w)
  = if dict_mem k d
    then rest (push (update_if_present k
                       (fun v => v + (a + (b - a) * tape (rng_pos w)) * sev) d)
                    (set_rng (S (rng_pos w)) w))
    else rest (push d w).
Proof.
  rewrite (bind_Ok _ _ _ _ _ (contains_top k d w)).
  unfold update_if_present, dict_mem. destruct (dict_get k d) as [v |] eqn:E; simpl.
  - unfold bind at 1.
    rewrite (bind_Ok _ _ _ _ _ (random_uniform_eq a b (push d w))).
    change (set_rng (S (rng_pos (push d w))) (push d w))
      with (push d (set_rng (S (rng_pos w)) w)).
    change (top w) with (top (set_rng (S (rng_pos w)) w)).
    unfold iadd.
    rewrite (bind_Ok _ _ _ _ _ (getitem_top k v d _ E)), setitem_top.
    reflexivity.
  - reflexivity.
Qed.

(** The cavitation model returns a new object that has the keys of its
    argument, and the values of its argument under the tags it does not
    test; it consumes draws and changes nothing else. *)
Lemma CavitationFailure_apply_eq (self : FailureMode) (t : Q) (l : loc)
    (w : world) :
  exists d' n,
    CavitationFailure_apply tape self t l w = (Ok (top w), push d' (set_rng n w))
    /\ keys d' = keys (obj l w)
    /\ forall k, recognized CavitationFailure k = false ->
         dict_get k d' = dict_get k (obj l w).
Proof.
  unfold CavitationFailure_apply.
  rewrite (bind_Ok _ _ _ _ _ (copy_eq l w)).
  unfold imul. rewrite guarded_update_then.
  set (d1 := update_if_present "discharge_pressure_bar" _ (obj l w)).
  assert (keys d1 = keys (obj l w)) as K1 by apply keys_update_if_present.
  assert (forall k, recognized CavitationFailure k = false ->
                    dict_get k d1 = dict_get k (obj l w)) as G1.
  { intros k Hk. apply get_update_other. intros ->. discriminate. }
  rewrite guarded_draw_then.
  assert (forall (d2 : dict Q) (w2 : world) (n2 : nat),
            w2 = set_rng n2 w -> keys d2 = keys (obj l w) ->
            (forall k, recognized CavitationFailure k = false ->
                       dict_get k d2 = dict_get k (obj l w)) ->
            exists d' n,
              (c <- contains (top w) "motor_current_a" ;;
               when c (u <- random_uniform tape (-5) 5 ;;
                       iadd (top w) "motor_current_a" (u * severity self)) ;;;
               ret (top w)) (push d2 w2)
              = (Ok (top w), push d' (set_rng n w))
              /\ keys d' = keys (obj l w)
              /\ forall k, recognized CavitationFailure k = false ->
                   dict_get k d' = dict_get k (obj l w)) as Last.
  { intros d2 w2 n2 -> K2 G2.
    change (top w) with (top (set_rng n2 w)).
    rewrite guarded_draw_then. destruct (dict_mem "motor_current_a" d2).
    - eexists. exists (S n2). split; [reflexivity |]. split.
      + rewrite keys_update_if_present. exact K2.
      + intros k Hk. rewrite get_update_other; [auto | intros ->; discriminate].
    - exists d2, n2. auto. }
  destruct (dict_mem "vibration_vel_mm_s" d1).
  - apply (Last _ _ (S (rng_pos w)) eq_refl).
    + rewrite keys_update_if_present. exact K1.
    + intros k Hk. rewrite get_update_other; [auto | intros ->; discriminate].
  - apply (Last d1 w (rng_pos w)); [symmetry; apply set_rng_same | exact K1 | exact G1].
Qed.

End Cavitation.

(** ** Dispatch *)

Lemma unrecognized_two (k : string) :
  existsb (String.eqb k) ["vibration_vel_mm_s"; "bearing_temp_c"] = false ->
  k <> "vibration_vel_mm_s" /\ k <> "bearing_temp_c".
Proof.
  simpl. intros H. split; intros ->; discriminate.
Qed.

(** Every failure class returns a mapping with the keys of its argument
    that agrees with it outside the tags the class tests, and leaves every
    object that existed before the call as it was. *)
Lemma apply_spec (tape : nat -> Q) (f : FailureMode) (t : Q) (l : loc)
    (w : world) :
  exists l' w',
    apply tape f t l w = (Ok l', w')
    /\ adjusts f t (obj l w) (obj l' w')
    /\ (forall l0, (l0 < List.length (heap w))%nat -> obj l0 w' = obj l0 w)
    /\ trace w' = trace w.
Proof.
  unfold apply, adjusts. destruct (fm_class f) eqn:C.
  - exists l, w. rewrite FailureMode_apply_eq. repeat split; auto.
  - eexists. eexists. rewrite BearingWearFailure_apply_eq.
    split; [reflexivity |]. rewrite obj_top. repeat split.
    + unfold bearing_wear_values. rewrite !keys_update_if_present. reflexivity.
    + intros k Hk. apply unrecognized_two in Hk. destruct Hk as [H1 H2].
      unfold bearing_wear_values. rewrite !get_update_other; auto.
    + intros l0 H. apply obj_push_below. exact H.
  - eexists. eexists. rewrite MisalignmentFailure_apply_eq.
    split; [reflexivity |]. rewrite obj_top. repeat split.
    + unfold misalignment_values. rewrite !keys_update_if_present. reflexivity.
    + intros k Hk. apply unrecognized_two in Hk. destruct Hk as [H1 H2].
      unfold misalignment_values. rewrite !get_update_other; auto.
    + intros l0 H. apply obj_push_below. exact H.
  - destruct (CavitationFailure_apply_eq tape f t l w) as (d' & n & E & K & G).
    eexists. eexists. rewrite E. split; [reflexivity |].
    change (top w) with (top (set_rng n w)). rewrite obj_top. repeat split; auto.
    intros l0 H. rewrite obj_push_below; [reflexivity | exact H].
Qed.

(** ** Data points *)

Section DataPoints.

Variables (tape : nat -> Q) (asset : AssetConfig) (t : Q).

Lemma data_point_for_spec (acc : list Reading) (item : string * Q) (w : world) :
  exists r w',
    data_point_for tape asset t acc item w = (Ok (acc ++ [r])%list, w')
    /\ emitted asset t item r
    /\ heap w' = heap w /\ trace w' = trace w.
Proof.
  destruct item as [sensor v]. unfold data_point_for, emitted.
  unfold random_random, random_choice, draw, bind, ret. simpl.
  destruct (Qltb (tape (rng_pos w)) 0.01).
  - match goal with
    | |- context [Z.to_nat ?x] => destruct (Z.to_nat x) as [| [| [| [| k]]]]
    end;
      eexists; eexists; (split; [reflexivity |]); simpl;
      repeat split; auto; right; split; congruence.
  - eexists; eexists; (split; [reflexivity |]); simpl.
    repeat split; auto. right. split; congruence.
Qed.

(** The emission loop always returns, with one data point per item, in
    the order of the items. *)
Lemma data_points_for_spec (items : dict Q) :
  forall (acc : list Reading) (w : world),
  exists rs w',
    data_points_for tape asset t items acc w = (Ok (acc ++ rs)%list, w')
    /\ Forall2 (emitted asset t) items rs
    /\ heap w' = heap w /\ trace w' = trace w.
Proof.
  unfold data_points_for. induction items as [| item r IH]; intros acc w.
  - exists [], w. simpl. rewrite app_nil_r. repeat split; auto.
  - destruct (data_point_for_spec acc item w) as (x & w1 & E1 & Hx & Hh1 & Ht1).
    destruct (IH (acc ++ [x])%list w1) as (rs & w2 & E2 & Hrs & Hh2 & Ht2).
    exists (x :: rs), w2. simpl for_each.
    rewrite (bind_Ok _ _ _ _ _ E1), E2, <- app_assoc. simpl.
    repeat split; auto; congruence.
Qed.

End DataPoints.

Lemma emitted_quality_invariant (asset : AssetConfig) (t : Q)
    (item : string * Q) (r : Reading) :
  emitted asset t item r -> quality_invariant r.
Proof.
  unfold emitted, quality_invariant.
  intros (_ & _ & _ & [[Hq Hv] | [Hq Hv]]); split; congruence.
Qed.

Lemma Forall2_emitted_invariant (asset : AssetConfig) (t : Q)
    (items : dict Q) (rs : list Reading) :
  Forall2 (emitted asset t) items rs -> Forall quality_invariant rs.
Proof.
  induction 1; constructor; eauto using emitted_quality_invariant.
Qed.

(** ** One generation step *)

Section Generation.

Variables (np_pi : Q) (np_sin : Q -> Q) (tape : nat -> Q).

Lemma apply_on_fresh (f : FailureMode) (t : Q) (base_values : dict Q)
    (w : world) :
  exists adjusted w',
    (l <- alloc base_values ;; l' <- apply tape f t l ;; deref l') w
    = (Ok adjusted, w')
    /\ adjusts f t base_values adjusted
    /\ trace w' = trace w.
Proof.
  rewrite (bind_Ok _ _ _ _ _ (alloc_eq base_values w)).
  destruct (apply_spec tape f t (top w) (push base_values w))
    as (l' & w' & E & A & _ & T).
  rewrite (bind_Ok _ _ _ _ _ E). exists (obj l' w'), w'.
  split; [reflexivity |]. rewrite obj_top in A. split; [exact A | exact T].
Qed.

(** A step draws the base values, adjusts them when the failure is
    active, and turns every item into a data point; the only thing that
    can go wrong is the remainder taken for the progress message. *)
Lemma generate_step_spec (asset : AssetConfig) (fm : option FailureMode)
    (start_time : Q) (interval total_points : Z) (acc : list Reading)
    (i : Z) (w : world) :
  exists base_values w1 adjusted rs w3,
    generate_base_values np_pi np_sin tape (asset_class asset)
      (start_time + inject_Z (i * interval)) w = (Ok base_values, w1)
    /\ match failure_active asset fm i interval with
       | Some (f, fsh) =>
           adjusts f (start_time + inject_Z (i * interval)
                      - (start_time + fsh * 3600)) base_values adjusted
       | None => adjusted = base_values
       end
    /\ keys adjusted = keys (config_of (asset_class asset))
    /\ Forall2 (emitted asset (start_time + inject_Z (i * interval))) adjusted rs
    /\ trace w3 = trace w
    /\ generate_step np_pi np_sin tape asset fm start_time interval
         total_points acc i w
       = if (total_points / 10 =? 0)%Z
         then (Raise ZeroDivisionError, w3)
         else (Ok (acc ++ rs)%list, w3).
Proof.
  set (t := start_time + inject_Z (i * interval)).
  destruct (generate_base_values_spec np_pi np_sin tape (asset_class asset) t w)
    as (base_values & E0 & K & _).
  assert (exists adjusted w2,
            match failure_active asset fm i interval with
            | Some (f, fsh) =>
                (l <- alloc base_values ;;
                 l' <- apply tape f (t - (start_time + fsh * 3600)) l ;;
                 deref l')
            | None => ret base_values
            end (set_rng (rng_pos w + List.length (config_of (asset_class asset))) w)
            = (Ok adjusted, w2)
            /\ match failure_active asset fm i interval with
               | Some (f, fsh) =>
                   adjusts f (t - (start_time + fsh * 3600)) base_values adjusted
               | None => adjusted = base_values
               end
            /\ trace w2 = trace w) as (adjusted & w2 & E1 & A & T2).
  { destruct (failure_active asset fm i interval) as [[f fsh] |].
    - destruct (apply_on_fresh f (t - (start_time + fsh * 3600)) base_values
                  (set_rng (rng_pos w + List.length (config_of (asset_class asset))) w))
        as (adjusted & w2 & E & A & T).
      exists adjusted, w2. auto.
    - eexists. eexists. split; [reflexivity |]. auto. }
  destruct (data_points_for_spec tape asset t adjusted acc w2)
    as (rs & w3 & E2 & F & _ & T3).
  exists base_values, (set_rng (rng_pos w + List.length (config_of (asset_class asset))) w),
    adjusted, rs, w3.
  split; [exact E0 |]. split; [exact A |]. split.
  { destruct (failure_active asset fm i interval) as [[f fsh] |].
    - destruct A as (KA & _). congruence.
    - congruence. }
  split; [exact F |]. split; [congruence |].
  unfold generate_step. fold t.
  rewrite (bind_Ok _ _ _ _ _ E0), (bind_Ok _ _ _ _ _ E1), (bind_Ok _ _ _ _ _ E2).
  unfold py_mod. destruct (total_points / 10 =? 0)%Z; reflexivity.
Qed.

(** ** The generation loop *)

(** With fewer than ten points the first step raises. *)
Lemma loop_raises (asset : AssetConfig) (fm : option FailureMode)
    (start_time : Q) (interval total_points : Z) (x : Z) (xs : list Z)
    (acc : list Reading) (w : world) :
  (total_points / 10 = 0)%Z ->
  exists w',
    for_each (x :: xs)
      (generate_step np_pi np_sin tape asset fm start_time interval total_points)
      acc w
    = (Raise ZeroDivisionError, w')
    /\ trace w' = trace w.
Proof.
  intros H.
  destruct (generate_step_spec asset fm start_time interval total_points acc x w)
    as (b & w1 & a & rs & w3 & _ & _ & _ & _ & T & E).
  apply Z.eqb_eq in H. rewrite H in E.
  exists w3. simpl. rewrite (bind_Raise _ _ _ _ _ E). auto.
Qed.

(** Otherwise every step succeeds and adds one data point per sensor of
    the class of the asset. *)
Lemma loop_ok (asset : AssetConfig) (fm : option FailureMode)
    (start_time : Q) (interval total_points : Z) :
  (total_points / 10 <> 0)%Z ->
  forall (xs : list Z) (acc : list Reading) (w : world),
  exists out w',
    for_each xs
      (generate_step np_pi np_sin tape asset fm start_time interval total_points)
      acc w
    = (Ok (acc ++ out)%list, w')
    /\ List.length out
       = (List.length xs * List.length (config_of (asset_class asset)))%nat
    /\ Forall quality_invariant out
    /\ trace w' = trace w.
Proof.
  intros H. apply Z.eqb_neq in H.
  induction xs as [| x r IH]; intros acc w.
  - exists [], w. simpl. rewrite app_nil_r. auto.
  - destruct (generate_step_spec asset fm start_time interval total_points acc x w)
      as (b & w1 & a & rs & w3 & _ & _ & K & F & T & E).
    rewrite H in E.
    destruct (IH (acc ++ rs)%list w3) as (out & w' & E' & L & Q & T').
    exists (rs ++ out)%list, w'. simpl for_each.
    rewrite (bind_Ok _ _ _ _ _ E), E', <- app_assoc.
    split; [reflexivity |]. split; [| split].
    + rewrite length_app, L. simpl. f_equal.
      rewrite <- (Forall2_length F). unfold keys in K.
      rewrite <- (length_map fst a), K, length_map. reflexivity.
    + apply Forall_app. split; [| exact Q].
      eapply Forall2_emitted_invariant. exact F.
    + congruence.
Qed.

Lemma range_nonempty (n : Z) :
  (0 < n)%Z -> exists xs, range n = 0%Z :: xs.
Proof.
  intros H. unfold range. destruct (Z.to_nat n) eqn:E; [lia |].
  simpl. eexists. reflexivity.
Qed.

Lemma range_empty (n : Z) : (n <= 0)%Z -> range n = [].
Proof.
  intros H. unfold range. replace (Z.to_nat n) with 0%nat by lia. reflexivity.
Qed.

Lemma length_range (n : Z) : List.length (range n) = Z.to_nat n.
Proof. unfold range. rewrite length_map, length_seq. reflexivity. Qed.

(** *** [generate_asset_data], case by case *)

Lemma generate_zero_interval (asset : AssetConfig) (start_time : Q)
    (duration_hours : Z) (w : world) :
  generate_asset_data np_pi np_sin tape asset start_time duration_hours 0 w
  = (Raise ZeroDivisionError, w).
Proof. reflexivity. Qed.

Lemma generate_unfold (asset : AssetConfig) (start_time : Q)
    (duration_hours interval : Z) (w : world) :
  interval <> 0%Z ->
  generate_asset_data np_pi np_sin tape asset start_time duration_hours interval w
  = for_each (range (duration_hours * 3600 / interval))
      (generate_step np_pi np_sin tape asset (init_failure_mode asset)
         start_time interval (duration_hours * 3600 / interval))
      [] w.
Proof.
  intros H. unfold generate_asset_data, floordiv.
  apply Z.eqb_neq in H. rewrite H. reflexivity.
Qed.

Lemma generate_no_points (asset : AssetConfig) (start_time : Q)
    (duration_hours interval : Z) (w : world) :
  interval <> 0%Z -> (duration_hours * 3600 / interval <= 0)%Z ->
  generate_asset_data np_pi np_sin tape asset start_time duration_hours interval w
  = (Ok [], w).
Proof.
  intros H0 H. rewrite generate_unfold by exact H0.
  rewrite range_empty by exact H. reflexivity.
Qed.

Lemma generate_few_points (asset : AssetConfig) (start_time : Q)
    (duration_hours interval : Z) (w : world) :
  interval <> 0%Z -> (0 < duration_hours * 3600 / interval < 10)%Z ->
  exists w',
    generate_asset_data np_pi np_sin tape asset start_time duration_hours interval w
    = (Raise ZeroDivisionError, w')
    /\ trace w' = trace w.
Proof.
  intros H0 H. rewrite generate_unfold by exact H0.
  destruct (range_nonempty (duration_hours * 3600 / interval)) as [xs ->]; [lia |].
  apply loop_raises. apply Z.div_small. lia.
Qed.

Lemma generate_many_points (asset : AssetConfig) (start_time : Q)
    (duration_hours interval : Z) (w : world) :
  interval <> 0%Z -> (10 <= duration_hours * 3600 / interval)%Z ->
  exists out w',
    generate_asset_data np_pi np_sin tape asset start_time duration_hours interval w
    = (Ok out, w')
    /\ List.length out
       = (Z.to_nat (duration_hours * 3600 / interval)
          * List.length (config_of (asset_class asset)))%nat
    /\ Forall quality_invariant out
    /\ trace w' = trace w.
Proof.
  intros H0 H. rewrite generate_unfold by exact H0.
  destruct (loop_ok asset (init_failure_mode asset) start_time interval
              (duration_hours * 3600 / interval))
    with (xs := range (duration_hours * 3600 / interval)) (acc := @nil Reading) (w := w)
    as (out & w' & E & L & Q & T).
  - intros C. apply Z.div_small_iff in C; lia.
  - exists out, w'. rewrite length_range in L. auto.
Qed.

End Generation.

(** * The claims *)

(** ** Generation for one asset *)

(** C1. Scenario A of the specification (one pump without failure mode,
    one hour, one sample every 3600 seconds) does not return five data
    points: the single step of the loop raises [ZeroDivisionError] when it
    computes [i % (total_points // 10)] for the progress message, whatever
    the noise and the cycles are. *)
Theorem C1_scenario_A_raises :
  forall (np_pi : Q) (np_sin : Q -> Q) (tape : nat -> Q)
         (id pl vd : string) (start_time : Q) (w : world),
  exists w',
    generate_asset_data np_pi np_sin tape (healthy_asset id pl "pump" vd)
      start_time 1 3600 w
    = (Raise ZeroDivisionError, w').
Proof.
  intros.
  destruct (generate_few_points np_pi np_sin tape (healthy_asset id pl "pump" vd)
              start_time 1 3600 w) as (w' & E & _).
  - discriminate.
  - vm_compute. split; reflexivity.
  - exists w'. exact E.
Qed.

(** C2. A failure mode configured with onset offset 0 is never applied:
    the asset generates exactly what the same asset without failure mode
    generates.  In particular a pump with bearing wear from hour 0 and
    severity 1 still reports, 240 hours in and without noise, the base
    vibration velocity 5 and not 5 + 15. *)
Theorem C2_onset_zero_is_never_applied :
  (forall (np_pi : Q) (np_sin : Q -> Q) (tape : nat -> Q)
          (id pl cl vd mode : string) (sev start_time : Q)
          (duration_hours interval : Z) (w : world),
     generate_asset_data np_pi np_sin tape
       (mkAsset id pl cl vd (Some mode) (Some 0) sev)
       start_time duration_hours interval w
     = generate_asset_data np_pi np_sin tape
         (mkAsset id pl cl vd None None sev)
         start_time duration_hours interval w)
  /\ exists out w' r v,
       generate_asset_data 3 flat calm_tape pump_B epoch_2023 241 3600
         initial_world = (Ok out, w')
       /\ nth_error out (240 * 5) = Some r
       /\ ts r = (py_int (epoch_2023 * 1000) + 240 * 3600 * 1000)%Z
       /\ tag r = "vibration_vel_mm_s"
       /\ value r = Some v
       /\ v == 5.
Proof.
  split.
  - intros. unfold generate_asset_data.
    assert (init_failure_mode (mkAsset id pl cl vd (Some mode) (Some 0) sev) = None) as ->.
    { unfold init_failure_mode. simpl. rewrite andb_false_r. reflexivity. }
    reflexivity.
  - eexists. eexists. eexists. eexists.
    split; [vm_compute; reflexivity |].
    split; [vm_compute; reflexivity |].
    repeat split.
Qed.

(** C3. Every data point carries no value exactly when its quality is
    [NO_DATA].  The emission loop always returns, with one data point per
    item of the mapping it is given, tagged with the sensor, whose value is
    the value of the item unless the quality is [NO_DATA]; and every data
    point [generate_asset_data] returns satisfies the invariant. *)
Theorem C3_value_absent_iff_no_data :
  forall (np_pi : Q) (np_sin : Q -> Q) (tape : nat -> Q) (asset : AssetConfig),
    (forall (t : Q) (items : dict Q) (acc : list Reading) (w : world),
       exists rs w',
         data_points_for tape asset t items acc w = (Ok (acc ++ rs)%list, w')
         /\ Forall2 (emitted asset t) items rs
         /\ Forall quality_invariant rs)
    /\ (forall (start_time : Q) (duration_hours interval : Z)
               (w w' : world) (out : list Reading),
          generate_asset_data np_pi np_sin tape asset start_time
            duration_hours interval w = (Ok out, w') ->
          Forall quality_invariant out).
Proof.
  intros. split.
  - intros. destruct (data_points_for_spec tape asset t items acc w)
      as (rs & w' & E & F & _).
    exists rs, w'. split; [exact E |]. split; [exact F |].
    eapply Forall2_emitted_invariant. exact F.
  - intros start_time duration_hours interval w w' out E.
    destruct (Z.eq_dec interval 0) as [-> | H0].
    { rewrite generate_zero_interval in E. discriminate. }
    destruct (Z_le_gt_dec (duration_hours * 3600 / interval) 0) as [Hn | Hp].
    { rewrite generate_no_points in E by assumption.
      injection E as <- _. constructor. }
    destruct (Z_lt_ge_dec (duration_hours * 3600 / interval) 10) as [Hs | Hl].
    { destruct (generate_few_points np_pi np_sin tape asset start_time
                  duration_hours interval w H0) as (w1 & E1 & _); [lia |].
      rewrite E1 in E. discriminate. }
    destruct (generate_many_points np_pi np_sin tape asset start_time
                duration_hours interval w H0) as (o & w1 & E1 & _ & Q & _); [lia |].
    rewrite E1 in E. injection E as <- _. exact Q.
Qed.

Lemma C3_witness :
  exists out w',
    generate_asset_data 3 flat mixed_tape pump_A epoch_2023 10 3600 initial_world
    = (Ok out, w')
    /\ List.length out = 50%nat
    /\ Forall quality_invariant out.
Proof.
  eexists. eexists. split; [vm_compute; reflexivity |].
  split; [reflexivity |].
  apply (proj2 (C3_value_absent_iff_no_data 3 flat mixed_tape pump_A)
           epoch_2023 10%Z 3600%Z initial_world
           (set_rng 119 initial_world)).
  vm_compute. reflexivity.
Defined.

(** ** Base values *)

(** C6. For every asset class (an unknown one is read as a pump), every
    time, every tape of noise draws and every state, base-value generation
    returns a mapping in which every sensor of the class has a value, and
    that value lies within the inclusive range of the sensor. *)
Theorem C6_base_values_within_range :
  forall (np_pi : Q) (np_sin : Q -> Q) (tape : nat -> Q)
         (cls : string) (t : Q) (w : world),
  exists values w',
    generate_base_values np_pi np_sin tape cls t w = (Ok values, w')
    /\ forall sensor params,
         dict_get sensor (config_of cls) = Some params ->
         exists v,
           dict_get sensor values = Some v
           /\ range_lo params <= v /\ v <= range_hi params.
Proof.
  intros.
  destruct (generate_base_values_spec np_pi np_sin tape cls t w)
    as (values & E & K & R).
  exists values. eexists. split; [exact E |].
  intros sensor params H.
  assert (In sensor (keys values)) as Hin.
  { rewrite K. apply dict_get_keys. congruence. }
  apply dict_get_keys in Hin.
  destruct (dict_get sensor values) as [v |] eqn:G; [| congruence].
  exists v. split; [reflexivity |].
  destruct (R sensor v G) as (p & Hp & Hr).
  assert (p = params) as -> by congruence. exact Hr.
Qed.

Lemma C6_witness :
  exists values w',
    generate_base_values 3 flat mixed_tape "PUMP" epoch_2023 initial_world
    = (Ok values, w')
    /\ exists v, dict_get "bearing_temp_c" values = Some v
                 /\ 20 <= v /\ v <= 120.
Proof.
  destruct (C6_base_values_within_range 3 flat mixed_tape "PUMP" epoch_2023
              initial_world) as (values & w' & E & H).
  exists values, w'. split; [exact E |].
  apply (H "bearing_temp_c" (mkParams 60.0 2.0 20 120)). reflexivity.
Defined.

(** ** Failure models *)

Lemma degradation_full (t : Q) : 240 <= t / 3600 -> degradation t == 1.
Proof.
  intros H. unfold degradation.
  destruct (py_min_cases 1.0 (t / 3600 / 240)) as [[H1 ->] | [H1 ->]].
  - exfalso. assert (t / 3600 / 240 == (t / 3600) * (1 # 240)) as E by field.
    rewrite E in H1. lra.
  - reflexivity.
Qed.

Lemma degradation_ramp (t : Q) :
  t / 3600 < 240 -> degradation t == t / 3600 / 240.
Proof.
  intros H. unfold degradation.
  destruct (py_min_cases 1.0 (t / 3600 / 240)) as [[H1 ->] | [H1 ->]].
  - reflexivity.
  - exfalso. assert (t / 3600 / 240 == (t / 3600) * (1 # 240)) as E by field.
    rewrite E in H1. lra.
Qed.

(** What the bearing-wear model adds to the two sensors it tests. *)
Lemma bearing_wear_values_get (sev t : Q) (d : dict Q) :
  dict_get "vibration_vel_mm_s" (bearing_wear_values sev t d)
  = option_map (fun v => v + (5 + 10 * degradation t) * sev)
      (dict_get "vibration_vel_mm_s" d)
  /\ dict_get "bearing_temp_c" (bearing_wear_values sev t d)
     = option_map (fun v => v + (10 + 20 * degradation t) * sev)
         (dict_get "bearing_temp_c" d).
Proof.
  unfold bearing_wear_values. split.
  - rewrite get_update_other by discriminate. apply get_update_same.
  - rewrite get_update_same, get_update_other by discriminate. reflexivity.
Qed.

(** C7. The bearing-wear model always returns.  From 240 hours after the
    onset on, the vibration velocity of the mapping it returns is the one
    it was given plus [15 * severity], and the bearing temperature the one
    it was given plus [30 * severity], however large the elapsed time;
    before 240 hours, with [h] the elapsed hours, the increments are
    [(5 + 10 * h / 240) * severity] and [(10 + 20 * h / 240) * severity]. *)
Theorem C7_bearing_wear_increments :
  forall (self : FailureMode) (t : Q) (l : loc) (w : world),
  exists l' w',
    BearingWearFailure_apply self t l w = (Ok l', w')
    /\ (240 <= t / 3600 ->
        (forall v, dict_get "vibration_vel_mm_s" (obj l w) = Some v ->
           exists v', dict_get "vibration_vel_mm_s" (obj l' w') = Some v'
                      /\ v' == v + 15 * severity self)
        /\ (forall v, dict_get "bearing_temp_c" (obj l w) = Some v ->
              exists v', dict_get "bearing_temp_c" (obj l' w') = Some v'
                         /\ v' == v + 30 * severity self))
    /\ (t / 3600 < 240 ->
        (forall v, dict_get "vibration_vel_mm_s" (obj l w) = Some v ->
           exists v', dict_get "vibration_vel_mm_s" (obj l' w') = Some v'
                      /\ v' == v + (5 + 10 * (t / 3600) / 240) * severity self)
        /\ (forall v, dict_get "bearing_temp_c" (obj l w) = Some v ->
              exists v', dict_get "bearing_temp_c" (obj l' w') = Some v'
                         /\ v' == v + (10 + 20 * (t / 3600) / 240) * severity self)).
Proof.
  intros. eexists. eexists.
  split; [apply BearingWearFailure_apply_eq |].
  rewrite obj_top.
  destruct (bearing_wear_values_get (severity self) t (obj l w)) as [Gv Gt].
  split; intros H; split; intros v Hv.
  - rewrite Gv, Hv. simpl. eexists. split; [reflexivity |].
    rewrite (degradation_full t H). ring.
  - rewrite Gt, Hv. simpl. eexists. split; [reflexivity |].
    rewrite (degradation_full t H). ring.
  - rewrite Gv, Hv. simpl. eexists. split; [reflexivity |].
    rewrite (degradation_ramp t H). field.
  - rewrite Gt, Hv. simpl. eexists. split; [reflexivity |].
    rewrite (degradation_ramp t H). field.
Qed.

Lemma C7_witness :
  (exists l' w' v',
     BearingWearFailure_apply (mkFailure BearingWearFailure 0.8)
       (300 * 3600) 0%nat pump_world = (Ok l', w')
     /\ dict_get "bearing_temp_c" (obj l' w') = Some v'
     /\ v' == 60 + 30 * 0.8)
  /\ (exists l' w' v',
        BearingWearFailure_apply (mkFailure BearingWearFailure 0.8)
          (120 * 3600) 0%nat pump_world = (Ok l', w')
        /\ dict_get "vibration_vel_mm_s" (obj l' w') = Some v'
        /\ v' == 5 + (5 + 10 * (120 * 3600 / 3600) / 240) * 0.8).
Proof.
  split.
  - destruct (C7_bearing_wear_increments (mkFailure BearingWearFailure 0.8)
                (300 * 3600) 0%nat pump_world) as (l' & w' & E & Hfull & _).
    assert (240 <= 300 * 3600 / 3600) as H by (apply Qle_bool_iff; reflexivity).
    destruct (proj2 (Hfull H) 60 eq_refl) as (v' & G & Hv).
    exists l', w', v'. auto.
  - destruct (C7_bearing_wear_increments (mkFailure BearingWearFailure 0.8)
                (120 * 3600) 0%nat pump_world) as (l' & w' & E & _ & Hramp).
    assert (120 * 3600 / 3600 < 240) as H by (apply Qltb_lt; reflexivity).
    destruct (proj1 (Hramp H) 5 eq_refl) as (v' & G & Hv).
    exists l', w', v'. auto.
Defined.

(** C9. For every failure class, [apply] returns, and after the call the
    mapping it was given, like every other object that existed before,
    has the contents it had before.  The mapping returned has the keys of
    the one given, in the same order, and under every key the class does
    not test it holds the value of the one given. *)
Theorem C9_apply_leaves_its_input_unchanged :
  forall (tape : nat -> Q) (self : FailureMode) (t : Q) (base_values : loc)
         (w : world),
    (base_values < List.length (heap w))%nat ->
    exists modified w',
      apply tape self t base_values w = (Ok modified, w')
      /\ obj base_values w' = obj base_values w
      /\ (forall l, (l < List.length (heap w))%nat -> obj l w' = obj l w)
      /\ keys (obj modified w') = keys (obj base_values w)
      /\ (forall k, recognized (fm_class self) k = false ->
            dict_get k (obj modified w') = dict_get k (obj base_values w)).
Proof.
  intros tape self t l w Hl.
  destruct (apply_spec tape self t l w) as (l' & w' & E & (K & G & _) & F & _).
  exists l', w'. repeat split; auto.
Qed.

Lemma C9_witness :
  exists modified w',
    apply mixed_tape (mkFailure CavitationFailure 0.7) 3600 0%nat pump_world
    = (Ok modified, w')
    /\ obj 0%nat w' = pump_values
    /\ dict_get "ambient_temp_c" (obj modified w') = Some 25.
Proof.
  destruct (C9_apply_leaves_its_input_unchanged mixed_tape
              (mkFailure CavitationFailure 0.7) 3600 0%nat pump_world)
    as (modified & w' & E & I & _ & _ & G).
  - simpl. lia.
  - exists modified, w'. split; [exact E |]. split; [exact I |].
    rewrite (G "ambient_temp_c" eq_refl). reflexivity.
Defined.

(** ** Sorting by timestamp *)

Lemma insert_by_ts_perm (x : Reading) (l : list Reading) :
  Permutation (x :: l) (insert_by_ts x l).
Proof.
  induction l as [| y r IH]; simpl; [constructor; constructor |].
  destruct (ts x <=? ts y)%Z; [apply Permutation_refl |].
  eapply perm_trans; [apply perm_swap |]. constructor. exact IH.
Qed.

Lemma sort_by_ts_perm (l : list Reading) : Permutation l (sort_by_ts l).
Proof.
  induction l as [| x r IH]; simpl; [constructor |].
  eapply perm_trans; [constructor; exact IH | apply insert_by_ts_perm].
Qed.

Lemma insert_by_ts_sorted (x : Reading) (l : list Reading) :
  sorted_by_ts l -> sorted_by_ts (insert_by_ts x l).
Proof.
  unfold sorted_by_ts. induction l as [| y r IH]; simpl; intros H.
  - constructor; constructor.
  - destruct (ts x <=? ts y)%Z eqn:E.
    + apply Z.leb_le in E. constructor; [exact H | constructor; exact E].
    + apply Z.leb_gt in E. inversion H as [| ? ? Hr Hy]; subst.
      constructor; [apply IH; exact Hr |].
      destruct r as [| z r']; simpl.
      * constructor. lia.
      * destruct (ts x <=? ts z)%Z; constructor; [lia |].
        inversion Hy; subst. assumption.
Qed.

Lemma sort_by_ts_sorted (l : list Reading) : sorted_by_ts (sort_by_ts l).
Proof.
  induction l as [| x r IH]; simpl.
  - constructor.
  - apply insert_by_ts_sorted. exact IH.
Qed.

Lemma sort_by_ts_length (l : list Reading) :
  List.length (sort_by_ts l) = List.length l.
Proof. symmetry. apply Permutation_length. apply sort_by_ts_perm. Qed.

(** ** Events *)

Lemma payloads_app (es1 es2 : list event) :
  payloads (es1 ++ es2) = (payloads es1 ++ payloads es2)%list.
Proof.
  induction es1 as [| e r IH]; simpl; [reflexivity |].
  destruct e; simpl; rewrite IH; reflexivity.
Qed.

Lemma total_sleep_app (es1 es2 : list event) :
  total_sleep (es1 ++ es2) == total_sleep es1 + total_sleep es2.
Proof.
  induction es1 as [| e r IH]; simpl; [ring |].
  destruct e; simpl; rewrite IH; ring.
Qed.

Lemma payloads_pause (last_ts : option Z) (x : Reading) :
  payloads (pause last_ts x) = [].
Proof.
  unfold pause. destruct last_ts as [last |]; [| reflexivity].
  destruct (truthy_Z last && _); reflexivity.
Qed.

(** A paced delivery sends the records in the order of the list. *)
Lemma payloads_paced_events (topic : string) (l : list Reading) :
  forall last_ts, payloads (paced_events topic last_ts l) = l.
Proof.
  induction l as [| x r IH]; intros last_ts; simpl; [reflexivity |].
  rewrite payloads_app, payloads_pause. simpl. rewrite IH. reflexivity.
Qed.

(** ** Delivery loops *)

Section Delivery.

Variables (produce_raises flush_raises : nat -> bool).
Variable topic : string.

Lemma pace_spec (last_ts : option Z) (x : Reading) (w : world) :
  exists w',
    pace last_ts x w = (Ok tt, w')
    /\ n_produce w' = n_produce w
    /\ trace w' = (trace w ++ pause last_ts x)%list.
Proof.
  unfold pace, pause. destruct last_ts as [last |]; simpl.
  - destruct (truthy_Z last); simpl.
    + destruct (Qltb 0 (inject_Z (ts x - last) / 1000)); simpl.
      * eexists. split; [reflexivity |]. split; reflexivity.
      * exists w. rewrite app_nil_r. auto.
    + exists w. rewrite app_nil_r. auto.
  - exists w. rewrite app_nil_r. auto.
Qed.


Lemma send_ok (last_ts : option Z) (x : Reading) (w : world) :
  produce_raises (n_produce w) = false ->
  exists w',
    (send_paced produce_raises topic) last_ts x w = (Ok (Some (ts x)), w')
    /\ n_produce w' = S (n_produce w)
    /\ trace w'
       = (trace w ++ pause last_ts x ++ [Produced topic (r_asset_id x) x])%list.
Proof.
  intros H. destruct (pace_spec last_ts x w) as (w1 & E1 & N1 & T1).
  unfold send_paced. rewrite (bind_Ok _ _ _ _ _ E1).
  unfold produce, bind, ret. rewrite N1, H.
  eexists. split; [reflexivity |]. simpl.
  rewrite N1, T1, <- app_assoc. auto.
Qed.

Lemma send_raises (last_ts : option Z) (x : Reading) (w : world) :
  produce_raises (n_produce w) = true ->
  exists w',
    (send_paced produce_raises topic) last_ts x w = (Raise KafkaException, w')
    /\ n_produce w' = S (n_produce w)
    /\ payloads (trace w') = payloads (trace w).
Proof.
  intros H. destruct (pace_spec last_ts x w) as (w1 & E1 & N1 & T1).
  unfold send_paced. rewrite (bind_Ok _ _ _ _ _ E1).
  unfold produce, bind. rewrite N1, H.
  eexists. split; [reflexivity |]. simpl.
  rewrite N1, T1, payloads_app, payloads_pause, app_nil_r. auto.
Qed.

(** When no call raises, the loop sends every record in order. *)
Lemma real_time_loop_ok (l : list Reading) :
  forall (last_ts : option Z) (w : world),
    (forall j, (j < List.length l)%nat ->
               produce_raises (n_produce w + j) = false) ->
    exists last' w',
      for_each l (send_paced produce_raises topic) last_ts w = (Ok last', w')
      /\ n_produce w' = (n_produce w + List.length l)%nat
      /\ trace w' = (trace w ++ paced_events topic last_ts l)%list.
Proof.
  induction l as [| x r IH]; intros last_ts w H.
  - exists last_ts, w. simpl. rewrite Nat.add_0_r, app_nil_r. auto.
  - destruct (send_ok last_ts x w) as (w1 & E1 & N1 & T1).
    { rewrite <- (Nat.add_0_r (n_produce w)). apply H. simpl. lia. }
    destruct (IH (Some (ts x)) w1) as (last' & w' & E & N & T).
    { intros j Hj. rewrite N1. replace (S (n_produce w) + j)%nat
        with (n_produce w + S j)%nat by lia. apply H. simpl. lia. }
    exists last', w'. simpl for_each. rewrite (bind_Ok _ _ _ _ _ E1), E.
    split; [reflexivity |]. split; [simpl; lia |].
    rewrite T, T1. simpl. rewrite <- !app_assoc. reflexivity.
Qed.

(** The first call that raises ends the loop: the records before it have
    been sent, the others never are. *)
Lemma real_time_loop_raises (l : list Reading) :
  forall (k : nat) (last_ts : option Z) (w : world),
    (k < List.length l)%nat ->
    (forall j, (j < k)%nat -> produce_raises (n_produce w + j) = false) ->
    produce_raises (n_produce w + k) = true ->
    exists w',
      for_each l (send_paced produce_raises topic) last_ts w = (Raise KafkaException, w')
      /\ n_produce w' = (n_produce w + S k)%nat
      /\ payloads (trace w') = (payloads (trace w) ++ firstn k l)%list.
Proof.
  induction l as [| x r IH]; intros k last_ts w Hk Hbefore Hat; simpl in Hk; [lia |].
  destruct k as [| k].
  - rewrite Nat.add_0_r in Hat.
    destruct (send_raises last_ts x w Hat) as (w1 & E1 & N1 & P1).
    exists w1. simpl for_each. rewrite (bind_Raise _ _ _ _ _ E1).
    split; [reflexivity |]. split; [lia |]. simpl. rewrite app_nil_r. exact P1.
  - destruct (send_ok last_ts x w) as (w1 & E1 & N1 & T1).
    { rewrite <- (Nat.add_0_r (n_produce w)). apply Hbefore. lia. }
    destruct (IH k (Some (ts x)) w1) as (w' & E & N & P).
    + lia.
    + intros j Hj. rewrite N1. replace (S (n_produce w) + j)%nat
        with (n_produce w + S j)%nat by lia. apply Hbefore. lia.
    + rewrite N1. replace (S (n_produce w) + k)%nat
        with (n_produce w + S k)%nat by lia. exact Hat.
    + exists w'. simpl for_each. rewrite (bind_Ok _ _ _ _ _ E1), E.
      split; [reflexivity |]. split; [lia |].
      rewrite P, T1, !payloads_app, payloads_pause. simpl.
      rewrite <- app_assoc. reflexivity.
Qed.

Lemma publish_real_time_ok (data_points : list Reading) (w : world) :
  (forall j, (j < List.length data_points)%nat ->
             produce_raises (n_produce w + j) = false) ->
  exists w',
    publish_real_time produce_raises data_points topic w = (Ok tt, w')
    /\ trace w'
       = (trace w ++ paced_events topic None (sort_by_ts data_points))%list.
Proof.
  intros H.
  destruct (real_time_loop_ok (sort_by_ts data_points) None w)
    as (last' & w' & E & _ & T).
  { rewrite sort_by_ts_length. exact H. }
  exists w'. unfold publish_real_time.
  rewrite (bind_Ok _ _ _ _ _ E). auto.
Qed.

Lemma publish_real_time_raises (data_points : list Reading) (k : nat)
    (w : world) :
  (k < List.length data_points)%nat ->
  (forall j, (j < k)%nat -> produce_raises (n_produce w + j) = false) ->
  produce_raises (n_produce w + k) = true ->
  exists w',
    publish_real_time produce_raises data_points topic w
    = (Raise KafkaException, w')
    /\ payloads (trace w')
       = (payloads (trace w) ++ firstn k (sort_by_ts data_points))%list.
Proof.
  intros Hk Hb Ha.
  destruct (real_time_loop_raises (sort_by_ts data_points) k None w)
    as (w' & E & _ & P); auto.
  { rewrite sort_by_ts_length. exact Hk. }
  exists w'. unfold publish_real_time.
  rewrite (bind_Raise _ _ _ _ _ E). auto.
Qed.


(** An attempt never raises: an error of [produce] or of the periodic
    [flush] is logged. *)
Lemma attempt_spec (i : nat) (x : Reading) (w : world) :
  exists w',
    (publish_one produce_raises flush_raises topic) tt (i, x) w = (Ok tt, w')
    /\ n_produce w' = S (n_produce w)
    /\ payloads (trace w')
       = (payloads (trace w)
          ++ if produce_raises (n_produce w) then [] else [x])%list
    /\ (produce_raises (n_produce w) = true ->
        trace w' = (trace w ++ [LogError])%list).
Proof.
  unfold publish_one, try_except, produce, flush, log_error, bind, when.
  generalize (i mod 1000 =? 0)%nat. intros c.
  destruct (produce_raises (n_produce w)) eqn:P; simpl;
    [| destruct c; simpl;
       [destruct (flush_raises (n_flush w)); simpl |]];
    eexists; (split; [reflexivity |]); simpl;
    rewrite ?payloads_app; simpl; rewrite ?app_nil_r;
    (split; [reflexivity |]); (split; [reflexivity |]);
    intros; try reflexivity; discriminate.
Qed.

Lemma bulk_loop (l : list Reading) :
  forall (s : nat) (w : world),
  exists w',
    for_each (combine (seq s (List.length l)) l)
      (publish_one produce_raises flush_raises topic) tt w = (Ok tt, w')
    /\ n_produce w' = (n_produce w + List.length l)%nat
    /\ payloads (trace w')
       = (payloads (trace w) ++ accepted produce_raises (n_produce w) l)%list.
Proof.
  induction l as [| x r IH]; intros s w.
  - exists w. simpl. rewrite Nat.add_0_r, app_nil_r. auto.
  - destruct (attempt_spec s x w) as (w1 & E1 & N1 & P1 & _).
    destruct (IH (S s) w1) as (w' & E & N & P).
    exists w'. simpl for_each. rewrite (bind_Ok _ _ _ _ _ E1), E.
    split; [reflexivity |]. split; [simpl; lia |].
    rewrite P, P1, N1, <- app_assoc. simpl.
    destruct (produce_raises (n_produce w)); reflexivity.
Qed.

(** Bulk delivery attempts every record whatever [produce] does; only the
    final [flush] can make it raise. *)
Lemma publish_to_kafka_spec (data_points : list Reading) (w : world) :
  exists w1,
    n_produce w1 = (n_produce w + List.length data_points)%nat
    /\ payloads (trace w1)
       = (payloads (trace w)
          ++ accepted produce_raises (n_produce w) data_points)%list
    /\ publish_to_kafka produce_raises flush_raises data_points topic w
       = flush flush_raises w1.
Proof.
  destruct (bulk_loop data_points 0 w) as (w1 & E & N & P).
  exists w1. split; [exact N |]. split; [exact P |].
  unfold publish_to_kafka, enumerate.
  rewrite (bind_Ok _ _ _ _ _ E). reflexivity.
Qed.

End Delivery.

(** ** Pauses of the paced delivery *)

Lemma interval_nonneg (z : Z) : (0 <= z)%Z -> 0 <= inject_Z z / 1000.
Proof.
  intros H. rewrite Zle_Qle in H. change (inject_Z 0) with 0 in H.
  assert (inject_Z z / 1000 == inject_Z z * (1 # 1000)) as E by field.
  rewrite E. lra.
Qed.

(** A pause is never negative and never longer than [min(60, dt / 1000)]. *)
Lemma pause_bound (last : Z) (x : Reading) :
  (last <= ts x)%Z ->
  0 <= total_sleep (pause (Some last) x)
  /\ total_sleep (pause (Some last) x)
     <= Qmin 60 (inject_Z (ts x - last) / 1000).
Proof.
  intros H. pose proof (interval_nonneg (ts x - last) ltac:(lia)) as Hd.
  unfold pause. set (d := inject_Z (ts x - last) / 1000) in *.
  destruct (Q.min_spec 60 d) as [[M1 M2] | [M1 M2]]; rewrite M2;
    destruct (truthy_Z last); simpl; try lra;
    destruct (Qltb 0 d) eqn:E; simpl; try lra;
    destruct (py_min_cases d 60) as [[P1 ->] | [P1 ->]]; lra.
Qed.

(** After a send with a non-zero timestamp the pause is exactly
    [min(60, dt / 1000)]. *)
Lemma pause_exact (last : Z) (x : Reading) :
  last <> 0%Z -> (last <= ts x)%Z ->
  total_sleep (pause (Some last) x)
  == Qmin 60 (inject_Z (ts x - last) / 1000).
Proof.
  intros H0 H. pose proof (interval_nonneg (ts x - last) ltac:(lia)) as Hd.
  unfold pause. set (d := inject_Z (ts x - last) / 1000) in *.
  assert (truthy_Z last = true) as ->.
  { unfold truthy_Z. apply negb_true_iff. apply Z.eqb_neq. exact H0. }
  simpl.
  destruct (Q.min_spec 60 d) as [[M1 M2] | [M1 M2]]; rewrite M2;
    destruct (Qltb 0 d) eqn:E; simpl;
    try (apply Qltb_ge in E);
    try (destruct (py_min_cases d 60) as [[P1 ->] | [P1 ->]]); lra.
Qed.

Lemma sorted_head (x y : Reading) (r : list Reading) :
  sorted_by_ts (x :: y :: r) -> (ts x <= ts y)%Z /\ sorted_by_ts (y :: r).
Proof.
  intros H. inversion H as [| ? ? Hr Hx]; subst.
  inversion Hx; subst. auto.
Qed.

(** Over a sorted list the time slept never exceeds the sum of
    [min(60, dt / 1000)] over the consecutive pairs. *)
Lemma paced_sleep_bound (topic : string) (r : list Reading) :
  forall x, sorted_by_ts (x :: r) ->
    total_sleep (paced_events topic (Some (ts x)) r) <= ideal_sleep (ts x) r.
Proof.
  induction r as [| y r IH]; intros x H; cbn [paced_events ideal_sleep].
  - simpl. lra.
  - destruct (sorted_head x y r H) as [Hxy Hs].
    rewrite total_sleep_app. cbn [total_sleep].
    destruct (pause_bound (ts x) y Hxy) as [_ Hb].
    specialize (IH y Hs). lra.
Qed.

Lemma paced_sleep_exact (topic : string) (r : list Reading) :
  forall x, sorted_by_ts (x :: r) -> Forall (fun y => ts y <> 0%Z) (x :: r) ->
    total_sleep (paced_events topic (Some (ts x)) r) == ideal_sleep (ts x) r.
Proof.
  induction r as [| y r IH]; intros x H F; cbn [paced_events ideal_sleep].
  - reflexivity.
  - destruct (sorted_head x y r H) as [Hxy Hs].
    inversion F as [| ? ? Fx Fr]; subst.
    rewrite total_sleep_app. cbn [total_sleep].
    rewrite (pause_exact (ts x) y Fx Hxy), (IH y Hs Fr). reflexivity.
Qed.

(** The whole paced delivery of any accumulated set: the records go out
    in timestamp order and the time slept is bounded as specified; it is
    exactly the specified sum when no timestamp is 0. *)
Lemma real_time_delivery (topic : string) (data_points : list Reading) :
  payloads (paced_events topic None (sort_by_ts data_points))
  = sort_by_ts data_points
  /\ sorted_by_ts (sort_by_ts data_points)
  /\ Permutation data_points (sort_by_ts data_points)
  /\ total_sleep (paced_events topic None (sort_by_ts data_points))
     <= ideal_total (sort_by_ts data_points)
  /\ (Forall (fun y => ts y <> 0%Z) data_points ->
      total_sleep (paced_events topic None (sort_by_ts data_points))
      == ideal_total (sort_by_ts data_points)).
Proof.
  split; [apply payloads_paced_events |].
  split; [apply sort_by_ts_sorted |].
  split; [apply sort_by_ts_perm |].
  pose proof (sort_by_ts_sorted data_points) as S.
  pose proof (sort_by_ts_perm data_points) as P.
  destruct (sort_by_ts data_points) as [| x r]; simpl.
  - split; [lra | reflexivity].
  - split.
    + apply paced_sleep_bound. exact S.
    + intros F. apply paced_sleep_exact; [exact S |].
      eapply Permutation_Forall; eassumption.
Qed.

(** The real-time branch when no call of [produce] raises: it ends
    normally, has sent the accumulated set in ascending order of timestamp,
    and has slept no longer than the sum of [min(60, dt / 1000)]. *)
Lemma publish_real_time_spec (produce_raises : nat -> bool) (topic : string)
    (data_points : list Reading) (w : world) :
  (forall j, (j < List.length data_points)%nat ->
             produce_raises (n_produce w + j)%nat = false) ->
  exists w',
    publish_real_time produce_raises data_points topic w = (Ok tt, w')
    /\ payloads (trace w')
       = (payloads (trace w) ++ sort_by_ts data_points)%list
    /\ sorted_by_ts (sort_by_ts data_points)
    /\ total_sleep (trace w')
       <= total_sleep (trace w) + ideal_total (sort_by_ts data_points).
Proof.
  intros H.
  destruct (publish_real_time_ok produce_raises topic data_points w H)
    as (w' & E & T).
  destruct (real_time_delivery topic data_points) as (P & S & _ & B & _).
  exists w'. split; [exact E |]. rewrite T.
  split; [rewrite payloads_app, P; reflexivity |].
  split; [exact S |].
  rewrite total_sleep_app. lra.
Qed.

(** ** Delivery *)

(** C5. In the real-time branch an error of [produce] is not caught: the
    first call that raises ends the run with that error, after the
    records sorted before it have been sent and before any later record
    is.  (Bulk delivery does carry on, see [publish_to_kafka_spec].) *)
Theorem C5_real_time_publish_error_aborts :
  forall (produce_raises : nat -> bool) (topic : string)
         (data_points : list Reading) (k : nat) (w : world),
    (k < List.length data_points)%nat ->
    (forall j, (j < k)%nat -> produce_raises (n_produce w + j)%nat = false) ->
    produce_raises (n_produce w + k)%nat = true ->
    exists w',
      publish_real_time produce_raises data_points topic w
      = (Raise KafkaException, w')
      /\ payloads (trace w')
         = (payloads (trace w) ++ firstn k (sort_by_ts data_points))%list.
Proof.
  intros. apply publish_real_time_raises; assumption.
Qed.

Lemma C5_witness :
  (exists w',
     publish_real_time first_call [reading_at 1000; reading_at 2000]
       "facilis.raw.timeseries" initial_world
     = (Raise KafkaException, w')
     /\ payloads (trace w') = [])
  /\ publish_to_kafka first_call never [reading_at 1000; reading_at 2000]
       "facilis.raw.timeseries" initial_world
     = (Ok tt,
        mkWorld [] 0 2 1
          [LogError;
           Produced "facilis.raw.timeseries" "PUMP_A" (reading_at 2000);
           Flushed]).
Proof.
  split.
  - apply (C5_real_time_publish_error_aborts first_call
             "facilis.raw.timeseries" [reading_at 1000; reading_at 2000]
             0%nat initial_world).
    + simpl. lia.
    + intros j Hj. lia.
    + reflexivity.
  - reflexivity.
Defined.

(** C8. The pause before a send is skipped when the previous record has
    timestamp 0, because [last_ts] is tested for truth: two records 5
    seconds apart, the first at timestamp 0, are sent without any pause,
    where [min(60, dt / 1000)] is 5 seconds; the same two records one
    second later are sent 5 seconds apart.  A run of [main] started at the
    epoch hour sleeps 600 seconds where the sum over the consecutive pairs
    is 660. *)
Theorem C8_no_pause_after_timestamp_zero :
  (exists w',
     publish_real_time never [reading_at 5000; reading_at 0]
       "facilis.raw.timeseries" initial_world = (Ok tt, w')
     /\ payloads (trace w') = [reading_at 0; reading_at 5000]
     /\ total_sleep (trace w') == 0
     /\ ideal_total [reading_at 0; reading_at 5000] == 5)
  /\ (exists w',
        publish_real_time never [reading_at 6000; reading_at 1000]
          "facilis.raw.timeseries" initial_world = (Ok tt, w')
        /\ payloads (trace w') = [reading_at 1000; reading_at 6000]
        /\ total_sleep (trace w') == 5)
  /\ (exists w',
        main 3 flat calm_tape never never 3600
          (mkArgs 1 300 "facilis.raw.timeseries" true None) initial_world
        = (Ok tt, w')
        /\ total_sleep (trace w') == 600
        /\ ideal_total (payloads (trace w')) == 660).
Proof.
  split; [| split].
  - eexists. split; [vm_compute; reflexivity |]. repeat split.
  - eexists. split; [vm_compute; reflexivity |]. repeat split.
  - eexists. split; [vm_compute; reflexivity |].
    split; vm_compute; reflexivity.
Qed.

(** ** The driver *)

Section Driver.

Variables (np_pi : Q) (np_sin : Q -> Q) (tape : nat -> Q).
Variables (produce_raises flush_raises : nat -> bool).




End Driver.




(** ** Steps without corrupted data points *)

Section CalmSteps.

Variables (np_pi : Q) (np_sin : Q -> Q) (tape : nat -> Q).






End CalmSteps.

(** ** A pump driven beyond its range *)

Section HotPump.

Variables (np_pi : Q) (np_sin : Q -> Q).





End HotPump.

(** ** Clamping and failure models *)



(** * Further properties of the generator *)

(** ** The shape of a run *)

Section Shape.

Variables (np_pi : Q) (np_sin : Q -> Q) (tape : nat -> Q).

(** Making data points does not touch the producer. *)
Lemma data_point_for_frame (asset : AssetConfig) (t : Q) (acc : list Reading)
    (item : string * Q) (w w' : world) (out : list Reading) :
  data_point_for tape asset t acc item w = (Ok out, w') ->
  n_produce w' = n_produce w /\ n_flush w' = n_flush w.
Proof.
  destruct item as [k v].
  unfold data_point_for, random_random, random_choice, draw, bind, ret.
  simpl. destruct (Qltb (tape (rng_pos w)) 0.01).
  - match goal with
    | |- context [Z.to_nat ?x] => destruct (Z.to_nat x) as [| [| [| [| n]]]]
    end; intros E; injection E as _ <-; auto.
  - intros E. injection E as _ <-. auto.
Qed.

Lemma data_points_for_frame (asset : AssetConfig) (t : Q) (items : dict Q) :
  forall (acc out : list Reading) (w w' : world),
    data_points_for tape asset t items acc w = (Ok out, w') ->
    n_produce w' = n_produce w /\ n_flush w' = n_flush w.
Proof.
  unfold data_points_for.
  induction items as [| item r IH]; intros acc out w w' E; simpl in E.
  - injection E as _ <-. auto.
  - destruct (data_point_for_spec tape asset t acc item w) as (x & wx & Ex & _).
    rewrite (bind_Ok _ _ _ _ _ Ex) in E.
    destruct (IH _ _ _ _ E) as [I1 I2].
    destruct (data_point_for_frame asset t acc item w wx _ Ex) as [J1 J2].
    split; congruence.
Qed.

Lemma generate_step_output (asset : AssetConfig) (fm : option FailureMode)
    (start_time : Q) (interval total_points : Z) (acc : list Reading)
    (i : Z) (w : world) :
  (total_points / 10 <> 0)%Z ->
  exists rs w',
    generate_step np_pi np_sin tape asset fm start_time interval total_points
      acc i w = (Ok (acc ++ rs)%list, w')
    /\ step_output asset fm start_time interval i rs
    /\ trace w' = trace w
    /\ n_produce w' = n_produce w /\ n_flush w' = n_flush w
    /\ (fm = None -> heap w' = heap w).
Proof.
  intros Htp. apply Z.eqb_neq in Htp.
  set (t := start_time + inject_Z (i * interval)).
  destruct (generate_base_values_spec np_pi np_sin tape (asset_class asset) t w)
    as (base_values & E0 & K & R).
  set (w1 := set_rng (rng_pos w + List.length (config_of (asset_class asset))) w) in *.
  assert (exists adjusted w2,
            match failure_active asset fm i interval with
            | Some (f, fsh) =>
                (l <- alloc base_values ;;
                 l' <- apply tape f (t - (start_time + fsh * 3600)) l ;;
                 deref l')
            | None => ret base_values
            end w1 = (Ok adjusted, w2)
            /\ match failure_active asset fm i interval with
               | Some (f, fsh) =>
                   adjusts f (t - (start_time + fsh * 3600)) base_values adjusted
               | None => adjusted = base_values
               end
            /\ trace w2 = trace w
            /\ n_produce w2 = n_produce w /\ n_flush w2 = n_flush w
            /\ (fm = None -> heap w2 = heap w))
    as (adjusted & w2 & E1 & A & T2 & P2 & F2 & H2).
  { destruct (failure_active asset fm i interval) as [[f fsh] |] eqn:FA.
    - rewrite (bind_Ok _ _ _ _ _ (alloc_eq base_values w1)).
      destruct (apply_spec tape f (t - (start_time + fsh * 3600)) (top w1)
                  (push base_values w1))
        as (l' & w2 & E & Ad & _ & T).
      rewrite (bind_Ok _ _ _ _ _ E). exists (obj l' w2), w2.
      split; [reflexivity |]. rewrite obj_top in Ad. split; [exact Ad |].
      split; [exact T |].
      assert (n_produce w2 = n_produce w /\ n_flush w2 = n_flush w) as [N1 N2].
      { clear - E. unfold apply in E.
        destruct (fm_class f).
        - rewrite FailureMode_apply_eq in E. injection E as _ <-. auto.
        - rewrite BearingWearFailure_apply_eq in E. injection E as _ <-. auto.
        - rewrite MisalignmentFailure_apply_eq in E. injection E as _ <-. auto.
        - destruct (CavitationFailure_apply_eq tape f
                      (t - (start_time + fsh * 3600)) (top w1)
                      (push base_values w1)) as (d' & n & E' & _).
          rewrite E' in E. injection E as _ <-. auto. }
      split; [exact N1 |]. split; [exact N2 |].
      intros ->. discriminate.
    - exists base_values, w1. repeat split; auto. }
  destruct (data_points_for_spec tape asset t adjusted acc w2)
    as (rs & w3 & E2 & F & H3 & T3).
  destruct (data_points_for_frame asset t adjusted acc _ w2 w3 E2) as [N1 N2].
  exists rs, w3. split.
  - unfold generate_step. fold t.
    rewrite (bind_Ok _ _ _ _ _ E0), (bind_Ok _ _ _ _ _ E1), (bind_Ok _ _ _ _ _ E2).
    unfold py_mod. rewrite Htp. reflexivity.
  - split.
    + exists base_values, adjusted. auto.
    + repeat split; try congruence. intros Hfm. rewrite H3. auto.
Qed.

(** A run of many steps is the concatenation of the outputs of its steps. *)
Lemma loop_chunks (asset : AssetConfig) (fm : option FailureMode)
    (start_time : Q) (interval total_points : Z) :
  (total_points / 10 <> 0)%Z ->
  forall (xs : list Z) (acc : list Reading) (w : world),
  exists chunks w',
    for_each xs
      (generate_step np_pi np_sin tape asset fm start_time interval total_points)
      acc w
    = (Ok (acc ++ List.concat chunks)%list, w')
    /\ Forall2 (step_output asset fm start_time interval) xs chunks
    /\ trace w' = trace w
    /\ n_produce w' = n_produce w /\ n_flush w' = n_flush w
    /\ (fm = None -> heap w' = heap w).
Proof.
  intros Htp. induction xs as [| x r IH]; intros acc w.
  - exists [], w. simpl. rewrite app_nil_r. repeat split; auto.
  - destruct (generate_step_output asset fm start_time interval total_points
                acc x w Htp) as (rs & w1 & E1 & O1 & T1 & P1 & F1 & H1).
    destruct (IH (acc ++ rs)%list w1) as (chunks & w' & E & O & T & P & F & H).
    exists (rs :: chunks), w'. simpl for_each.
    rewrite (bind_Ok _ _ _ _ _ E1), E. simpl. rewrite <- app_assoc.
    repeat split; auto; try congruence.
    intros Hfm. rewrite H, H1; auto.
Qed.

Lemma generate_chunks (asset : AssetConfig) (start_time : Q)
    (duration_hours interval : Z) (w : world) :
  interval <> 0%Z -> (10 <= duration_hours * 3600 / interval)%Z ->
  exists chunks w',
    generate_asset_data np_pi np_sin tape asset start_time duration_hours
      interval w = (Ok (List.concat chunks), w')
    /\ Forall2 (step_output asset (init_failure_mode asset) start_time interval)
         (range (duration_hours * 3600 / interval)) chunks
    /\ trace w' = trace w
    /\ n_produce w' = n_produce w /\ n_flush w' = n_flush w
    /\ (init_failure_mode asset = None -> heap w' = heap w).
Proof.
  intros H0 H. rewrite generate_unfold by exact H0.
  apply (loop_chunks asset (init_failure_mode asset) start_time interval
           (duration_hours * 3600 / interval)).
  intros C. apply Z.div_small_iff in C; lia.
Qed.

End Shape.




(** In a step in which the failure is not active, the values are those of
    base generation, hence within range. *)
Lemma step_output_within_range (asset : AssetConfig) (fm : option FailureMode)
    (start_time : Q) (interval i : Z) (rs : list Reading) :
  failure_active asset fm i interval = None ->
  step_output asset fm start_time interval i rs ->
  Forall (within_range (asset_class asset)) rs.
Proof.
  intros FA (base_values & adjusted & K & R & A & F).
  rewrite FA in A. subst adjusted.
  assert (NoDup (keys base_values)) as ND.
  { rewrite K. apply distinct_NoDup.
    pose proof (config_of_well_formed (asset_class asset)) as W.
    unfold well_formed_config in W. apply andb_prop in W. tauto. }
  apply Forall_forall. intros r Hr.
  assert (exists item, In item base_values
                       /\ emitted asset (start_time + inject_Z (i * interval))
                            item r) as (item & Hitem & E).
  { clear - F Hr. induction F as [| a b l1 l2 Hab _ IH]; simpl in *; [tauto |].
    destruct Hr as [<- | Hr].
    - exists a. auto.
    - destruct (IH Hr) as (x & Hx & HR). exists x. auto. }
  destruct item as [k v0]. destruct E as (_ & _ & Hg & Hval). simpl in Hg, Hval.
  intros v Hv. rewrite Hg.
  assert (v0 = v) as -> by (destruct Hval as [[_ C] | [_ C]]; congruence).
  apply R. apply dict_get_of_In; assumption.
Qed.

Lemma Forall_concat {A} (P : A -> Prop) (ls : list (list A)) :
  Forall (Forall P) ls -> Forall P (List.concat ls).
Proof.
  induction 1 as [| l ls H _ IH]; simpl; [constructor |].
  apply Forall_app. auto.
Qed.

Lemma failure_inactive_before_onset (asset : AssetConfig)
    (fm : option FailureMode) (fsh : Q) (i interval : Z) :
  failure_start_hours asset = Some fsh ->
  inject_Z (i * interval) < fsh * 3600 ->
  failure_active asset fm i interval = None.
Proof.
  intros H Hlt. unfold failure_active. rewrite H.
  destruct fm as [f |]; [| reflexivity].
  destruct (Qle_bool (fsh * 3600) (inject_Z (i * interval))) eqn:E.
  - apply Qle_bool_iff in E. lra.
  - rewrite andb_false_r. reflexivity.
Qed.





(** X3. When no failure instance is created for the asset (no mode, no
    onset, onset 0, or a mode name that is not in [failure_modes]), every
    value a run returns lies within the range of its sensor, and no
    mapping is ever handed to a failure model: the heap is as before. *)
Theorem X3_healthy_values_within_range :
  forall (np_pi : Q) (np_sin : Q -> Q) (tape : nat -> Q) (asset : AssetConfig)
         (start_time : Q) (duration_hours interval : Z) (w w' : world)
         (out : list Reading),
    init_failure_mode asset = None ->
    generate_asset_data np_pi np_sin tape asset start_time duration_hours
      interval w = (Ok out, w') ->
    Forall (within_range (asset_class asset)) out /\ heap w' = heap w.
Proof.
  intros np_pi np_sin tape asset start_time duration_hours interval w w' out
    Hfm E.
  destruct (Z.eq_dec interval 0) as [-> | H0].
  { rewrite generate_zero_interval in E. discriminate. }
  destruct (Z_le_gt_dec (duration_hours * 3600 / interval) 0) as [Hn | Hp].
  { rewrite generate_no_points in E by assumption.
    injection E as <- <-. split; [constructor | reflexivity]. }
  destruct (Z_lt_ge_dec (duration_hours * 3600 / interval) 10) as [Hs | Hl].
  { destruct (generate_few_points np_pi np_sin tape asset start_time
                duration_hours interval w H0) as (w1 & E1 & _); [lia |].
    rewrite E1 in E. discriminate. }
  destruct (generate_chunks np_pi np_sin tape asset start_time duration_hours
              interval w H0) as (chunks & w1 & E1 & F & _ & _ & _ & Hh); [lia |].
  rewrite E1 in E. injection E as <- <-. split; [| auto].
  apply Forall_concat. rewrite Hfm in F.
  clear - F. induction F as [| i rs xs chunks H _ IH]; constructor; [| exact IH].
  eapply step_output_within_range; [| exact H]. reflexivity.
Qed.

Lemma X3_witness :
  exists out w',
    generate_asset_data 3 flat mixed_tape pump_B epoch_2023 10 3600 initial_world
    = (Ok out, w')
    /\ Forall (within_range "pump") out /\ heap w' = [].
Proof.
  destruct (generate_asset_data 3 flat mixed_tape pump_B epoch_2023 10 3600
              initial_world) as [[out | e] w'] eqn:E.
  - exists out, w'. split; [reflexivity |].
    apply (X3_healthy_values_within_range 3 flat mixed_tape pump_B epoch_2023
             10%Z 3600%Z initial_world w' out eq_refl E).
  - vm_compute in E. discriminate.
Defined.



(** ** More on the failure models *)

Lemma degradation_bounds (t : Q) : 0 <= t -> 0 <= degradation t /\ degradation t <= 1.
Proof.
  intros H. unfold degradation.
  assert (t / 3600 / 240 == t * (1 # 864000)) as E by field.
  destruct (py_min_cases 1.0 (t / 3600 / 240)) as [[H1 ->] | [H1 ->]].
  - rewrite E in *. split; lra.
  - split; lra.
Qed.

Lemma degradation_monotone (t1 t2 : Q) :
  t1 <= t2 -> degradation t1 <= degradation t2.
Proof.
  intros H. unfold degradation.
  assert (t1 / 3600 / 240 == t1 * (1 # 864000)) as E1 by field.
  assert (t2 / 3600 / 240 == t2 * (1 # 864000)) as E2 by field.
  destruct (py_min_cases 1.0 (t1 / 3600 / 240)) as [[H1 ->] | [H1 ->]];
    destruct (py_min_cases 1.0 (t2 / 3600 / 240)) as [[H2 ->] | [H2 ->]];
    rewrite ?E1, ?E2 in *; lra.
Qed.

(** X5. For a non-negative severity the bearing-wear model never lowers
    a value and its effect grows with the elapsed time: applied to the
    same mapping after [t1 <= t2] seconds, with [0 <= t1], the vibration
    velocity it returns is at least the one given plus [5 * severity], at
    most the one given plus [15 * severity], and not smaller at [t2] than
    at [t1]; likewise the bearing temperature, between [10 * severity] and
    [30 * severity]. *)
Theorem X5_bearing_wear_bounded_and_monotone :
  forall (self : FailureMode) (t1 t2 : Q) (l : loc) (w : world),
    0 <= severity self -> 0 <= t1 -> t1 <= t2 ->
    exists l1 w1 l2 w2,
      BearingWearFailure_apply self t1 l w = (Ok l1, w1)
      /\ BearingWearFailure_apply self t2 l w = (Ok l2, w2)
      /\ (forall v, dict_get "vibration_vel_mm_s" (obj l w) = Some v ->
            exists v1 v2,
              dict_get "vibration_vel_mm_s" (obj l1 w1) = Some v1
              /\ dict_get "vibration_vel_mm_s" (obj l2 w2) = Some v2
              /\ v + 5 * severity self <= v1 /\ v1 <= v2
              /\ v2 <= v + 15 * severity self)
      /\ (forall v, dict_get "bearing_temp_c" (obj l w) = Some v ->
            exists v1 v2,
              dict_get "bearing_temp_c" (obj l1 w1) = Some v1
              /\ dict_get "bearing_temp_c" (obj l2 w2) = Some v2
              /\ v + 10 * severity self <= v1 /\ v1 <= v2
              /\ v2 <= v + 30 * severity self).
Proof.
  intros self t1 t2 l w Hs Ht1 Ht12.
  do 4 eexists.
  split; [apply BearingWearFailure_apply_eq |].
  split; [apply BearingWearFailure_apply_eq |].
  rewrite !obj_top.
  destruct (bearing_wear_values_get (severity self) t1 (obj l w)) as [Gv1 Gt1].
  destruct (bearing_wear_values_get (severity self) t2 (obj l w)) as [Gv2 Gt2].
  destruct (degradation_bounds t1 Ht1) as [D1 _].
  destruct (degradation_bounds t2 ltac:(lra)) as [_ D2].
  pose proof (degradation_monotone t1 t2 Ht12) as DM.
  set (d1 := degradation t1) in *. set (d2 := degradation t2) in *.
  set (s := severity self) in *.
  split; intros v Hv.
  - rewrite Gv1, Gv2, Hv. simpl. do 2 eexists.
    split; [reflexivity |]. split; [reflexivity |]. repeat split; nra.
  - rewrite Gt1, Gt2, Hv. simpl. do 2 eexists.
    split; [reflexivity |]. split; [reflexivity |]. repeat split; nra.
Qed.

Lemma X5_witness :
  exists l1 w1 l2 w2 v1 v2,
    BearingWearFailure_apply (mkFailure BearingWearFailure 0.8) (24 * 3600)
      0%nat pump_world = (Ok l1, w1)
    /\ BearingWearFailure_apply (mkFailure BearingWearFailure 0.8) (48 * 3600)
         0%nat pump_world = (Ok l2, w2)
    /\ dict_get "bearing_temp_c" (obj l1 w1) = Some v1
    /\ dict_get "bearing_temp_c" (obj l2 w2) = Some v2
    /\ 60 + 10 * 0.8 <= v1 /\ v1 <= v2 /\ v2 <= 60 + 30 * 0.8.
Proof.
  destruct (X5_bearing_wear_bounded_and_monotone
              (mkFailure BearingWearFailure 0.8) (24 * 3600) (48 * 3600)
              0%nat pump_world)
    as (l1 & w1 & l2 & w2 & E1 & E2 & _ & Ht).
  - apply Qle_bool_iff. reflexivity.
  - apply Qle_bool_iff. reflexivity.
  - apply Qle_bool_iff. reflexivity.
  - destruct (Ht 60 eq_refl) as (v1 & v2 & G1 & G2 & B).
    exists l1, w1, l2, w2, v1, v2. auto.
Defined.

Lemma misalignment_values_get (sev : Q) (d : dict Q) :
  dict_get "vibration_vel_mm_s" (misalignment_values sev d)
  = option_map (fun v => v + 3 * sev) (dict_get "vibration_vel_mm_s" d)
  /\ dict_get "bearing_temp_c" (misalignment_values sev d)
     = option_map (fun v => v + 5 * sev) (dict_get "bearing_temp_c" d).
Proof.
  unfold misalignment_values. split.
  - rewrite get_update_other by discriminate. apply get_update_same.
  - rewrite get_update_same, get_update_other by discriminate. reflexivity.
Qed.

(** X6. The misalignment model is a step: whatever the elapsed time, it
    returns a copy in which the vibration velocity, if present, is the one
    given plus [3 * severity] and the bearing temperature, if present, the
    one given plus [5 * severity]; a sensor that is absent stays absent,
    every other sensor keeps its value, and no random draw is consumed. *)
Theorem X6_misalignment_is_a_step :
  forall (self : FailureMode) (t : Q) (l : loc) (w : world),
  exists l' w',
    MisalignmentFailure_apply self t l w = (Ok l', w')
    /\ (forall t', MisalignmentFailure_apply self t' l w = (Ok l', w'))
    /\ dict_get "vibration_vel_mm_s" (obj l' w')
       = option_map (fun v => v + 3 * severity self)
           (dict_get "vibration_vel_mm_s" (obj l w))
    /\ dict_get "bearing_temp_c" (obj l' w')
       = option_map (fun v => v + 5 * severity self)
           (dict_get "bearing_temp_c" (obj l w))
    /\ (forall k, k <> "vibration_vel_mm_s" -> k <> "bearing_temp_c" ->
          dict_get k (obj l' w') = dict_get k (obj l w))
    /\ keys (obj l' w') = keys (obj l w)
    /\ rng_pos w' = rng_pos w.
Proof.
  intros. do 2 eexists.
  split; [apply MisalignmentFailure_apply_eq |].
  split; [intros t'; apply MisalignmentFailure_apply_eq |].
  rewrite obj_top.
  destruct (misalignment_values_get (severity self) (obj l w)) as [Gv Gt].
  split; [exact Gv |]. split; [exact Gt |]. split; [| split].
  - intros k H1 H2. unfold misalignment_values.
    rewrite !get_update_other; auto.
  - unfold misalignment_values. rewrite !keys_update_if_present. reflexivity.
  - reflexivity.
Qed.

Lemma X6_witness :
  exists l' w',
    MisalignmentFailure_apply (mkFailure MisalignmentFailure 0.6) 3600 0%nat
      pump_world = (Ok l', w')
    /\ dict_get "motor_current_a" (obj l' w') = Some 75.
Proof.
  destruct (X6_misalignment_is_a_step (mkFailure MisalignmentFailure 0.6) 3600
              0%nat pump_world) as (l' & w' & E & _ & _ & _ & G & _).
  exists l', w'. split; [exact E |].
  rewrite G by discriminate. reflexivity.
Defined.

Lemma dict_mem_update (k k' : string) (f : Q -> Q) (d : dict Q) :
  dict_mem k' (update_if_present k f d) = dict_mem k' d.
Proof.
  unfold dict_mem. destruct (string_dec k' k) as [-> | Hne].
  - rewrite get_update_same. destruct (dict_get k d); reflexivity.
  - rewrite get_update_other by exact Hne. reflexivity.
Qed.

(** The cavitation model, exactly. *)
Lemma CavitationFailure_apply_exact (tape : nat -> Q) (self : FailureMode)
    (t : Q) (l : loc) (w : world) :
  CavitationFailure_apply tape self t l w
  = (Ok (top w),
     push (fst (cavitation_values tape (severity self) (rng_pos w) (obj l w)))
          (set_rng (snd (cavitation_values tape (severity self) (rng_pos w)
                           (obj l w))) w)).
Proof.
  unfold CavitationFailure_apply, cavitation_values.
  rewrite (bind_Ok _ _ _ _ _ (copy_eq l w)).
  unfold imul. rewrite guarded_update_then.
  set (d1 := update_if_present "discharge_pressure_bar" _ (obj l w)).
  rewrite guarded_draw_then.
  destruct (dict_mem "vibration_vel_mm_s" d1).
  - set (d2 := update_if_present "vibration_vel_mm_s" _ d1).
    change (top w) with (top (set_rng (S (rng_pos w)) w)).
    rewrite guarded_draw_then.
    destruct (dict_mem "motor_current_a" d2); reflexivity.
  - rewrite guarded_draw_then.
    destruct (dict_mem "motor_current_a" d1); simpl.
    + reflexivity.
    + rewrite set_rng_same. reflexivity.
Qed.

Lemma cavitation_values_spec (tape : nat -> Q) (s : Q) (pos : nat)
    (d : dict Q) :
  0 <= s ->
  (forall n, 0 <= tape n /\ tape n <= 1) ->
  dict_get "discharge_pressure_bar" (fst (cavitation_values tape s pos d))
  = option_map (fun v => v * (1 - 0.3 * s)) (dict_get "discharge_pressure_bar" d)
  /\ (forall v, dict_get "vibration_vel_mm_s" d = Some v ->
        exists v',
          dict_get "vibration_vel_mm_s" (fst (cavitation_values tape s pos d))
          = Some v'
          /\ v <= v' /\ v' <= v + 5 * s)
  /\ (forall v, dict_get "motor_current_a" d = Some v ->
        exists v',
          dict_get "motor_current_a" (fst (cavitation_values tape s pos d))
          = Some v'
          /\ v - 5 * s <= v' /\ v' <= v + 5 * s)
  /\ snd (cavitation_values tape s pos d)
     = (pos + (if dict_mem "vibration_vel_mm_s" d then 1 else 0)
        + (if dict_mem "motor_current_a" d then 1 else 0))%nat.
Proof.
  intros Hs Htape. unfold cavitation_values.
  set (d1 := update_if_present "discharge_pressure_bar" _ d).
  assert (dict_mem "vibration_vel_mm_s" d1 = dict_mem "vibration_vel_mm_s" d)
    as M1 by apply dict_mem_update.
  assert (dict_get "vibration_vel_mm_s" d1 = dict_get "vibration_vel_mm_s" d)
    as G1 by (apply get_update_other; discriminate).
  assert (dict_get "motor_current_a" d1 = dict_get "motor_current_a" d)
    as C1 by (apply get_update_other; discriminate).
  assert (dict_mem "motor_current_a" d1 = dict_mem "motor_current_a" d)
    as MC1 by apply dict_mem_update.
  assert (dict_get "discharge_pressure_bar" d1
          = option_map (fun v => v * (1 - 0.3 * s))
              (dict_get "discharge_pressure_bar" d))
    as P1 by apply get_update_same.
  rewrite M1.
  destruct (dict_mem "vibration_vel_mm_s" d) eqn:Mv.
  - set (d2 := update_if_present "vibration_vel_mm_s" _ d1).
    assert (dict_mem "motor_current_a" d2 = dict_mem "motor_current_a" d)
      as MC2 by (unfold d2; rewrite dict_mem_update; exact MC1).
    assert (dict_get "motor_current_a" d2 = dict_get "motor_current_a" d)
      as C2 by (unfold d2; rewrite get_update_other by discriminate; exact C1).
    assert (dict_get "discharge_pressure_bar" d2
            = option_map (fun v => v * (1 - 0.3 * s))
                (dict_get "discharge_pressure_bar" d))
      as P2 by (unfold d2; rewrite get_update_other by discriminate; exact P1).
    assert (forall v, dict_get "vibration_vel_mm_s" d = Some v ->
              exists v', dict_get "vibration_vel_mm_s" d2 = Some v'
                         /\ v <= v' /\ v' <= v + 5 * s) as V2.
    { intros v Hv. unfold d2. rewrite get_update_same, G1, Hv. simpl.
      eexists. split; [reflexivity |]. destruct (Htape pos). split; nra. }
    rewrite MC2. destruct (dict_mem "motor_current_a" d) eqn:Mc; cbn [fst snd].
    + split; [rewrite get_update_other by discriminate; exact P2 |].
      split; [| split].
      * intros v Hv. destruct (V2 v Hv) as (v' & G & B).
        exists v'. rewrite get_update_other by discriminate. auto.
      * intros v Hv. rewrite get_update_same, C2, Hv. simpl.
        eexists. split; [reflexivity |]. destruct (Htape (S pos)). split; nra.
      * lia.
    + split; [exact P2 |]. split; [exact V2 |]. split; [| lia].
      intros v Hv. unfold dict_mem in Mc. rewrite Hv in Mc. discriminate.
  - rewrite MC1. destruct (dict_mem "motor_current_a" d) eqn:Mc; cbn [fst snd].
    + split; [rewrite get_update_other by discriminate; exact P1 |].
      split; [| split].
      * intros v Hv. unfold dict_mem in Mv. rewrite Hv in Mv. discriminate.
      * intros v Hv. rewrite get_update_same, C1, Hv. simpl.
        eexists. split; [reflexivity |]. destruct (Htape pos). split; nra.
      * lia.
    + split; [exact P1 |]. split; [| split; [| lia]].
      * intros v Hv. unfold dict_mem in Mv. rewrite Hv in Mv. discriminate.
      * intros v Hv. unfold dict_mem in Mc. rewrite Hv in Mc. discriminate.
Qed.

(** X7. The cavitation model returns a copy in which the discharge
    pressure, if present, is the one given times [1 - 0.3 * severity].
    It draws one uniform number for the vibration velocity if that sensor
    is present, then one for the motor current if present, and none
    otherwise; for a non-negative severity and draws of [random.random()]
    within [0, 1], the vibration velocity rises by at most [5 * severity]
    and the motor current moves by at most [5 * severity] either way. *)
Theorem X7_cavitation_effect :
  forall (tape : nat -> Q) (self : FailureMode) (t : Q) (l : loc) (w : world),
    0 <= severity self ->
    (forall n, 0 <= tape n /\ tape n <= 1) ->
    exists l' w',
      CavitationFailure_apply tape self t l w = (Ok l', w')
      /\ dict_get "discharge_pressure_bar" (obj l' w')
         = option_map (fun v => v * (1 - 0.3 * severity self))
             (dict_get "discharge_pressure_bar" (obj l w))
      /\ (forall v, dict_get "vibration_vel_mm_s" (obj l w) = Some v ->
            exists v', dict_get "vibration_vel_mm_s" (obj l' w') = Some v'
                       /\ v <= v' /\ v' <= v + 5 * severity self)
      /\ (forall v, dict_get "motor_current_a" (obj l w) = Some v ->
            exists v', dict_get "motor_current_a" (obj l' w') = Some v'
                       /\ v - 5 * severity self <= v'
                       /\ v' <= v + 5 * severity self)
      /\ rng_pos w'
         = (rng_pos w
            + (if dict_mem "vibration_vel_mm_s" (obj l w) then 1 else 0)
            + (if dict_mem "motor_current_a" (obj l w) then 1 else 0))%nat.
Proof.
  intros tape self t l w Hs Htape.
  destruct (cavitation_values_spec tape (severity self) (rng_pos w) (obj l w)
              Hs Htape) as (P & V & C & N).
  do 2 eexists. split; [apply CavitationFailure_apply_exact |].
  change (top w) with (top (set_rng (snd (cavitation_values tape (severity self)
                                            (rng_pos w) (obj l w))) w)).
  rewrite obj_top. auto.
Qed.

Lemma X7_witness :
  exists l' w' v',
    CavitationFailure_apply calm_tape (mkFailure CavitationFailure 0.7) 3600
      0%nat pump_world = (Ok l', w')
    /\ dict_get "vibration_vel_mm_s" (obj l' w') = Some v'
    /\ 5 <= v' /\ v' <= 5 + 5 * 0.7
    /\ rng_pos w' = 2%nat.
Proof.
  destruct (X7_cavitation_effect calm_tape (mkFailure CavitationFailure 0.7)
              3600 0%nat pump_world) as (l' & w' & E & _ & V & _ & N).
  - apply Qle_bool_iff. reflexivity.
  - intros n. unfold calm_tape.
    destruct (n mod 10 <? 5)%nat; split; apply Qle_bool_iff; reflexivity.
  - destruct (V 5 eq_refl) as (v' & G & B1 & B2).
    exists l', w', v'. auto.
Defined.

(** ** More on delivery *)

Lemma errors_logged_app (es1 es2 : list event) :
  errors_logged (es1 ++ es2) = (errors_logged es1 + errors_logged es2)%nat.
Proof.
  induction es1 as [| e r IH]; simpl; [reflexivity |].
  destruct e; simpl; rewrite IH; reflexivity.
Qed.

Lemma sleeps_app (es1 es2 : list event) :
  sleeps (es1 ++ es2) = (sleeps es1 ++ sleeps es2)%list.
Proof.
  induction es1 as [| e r IH]; simpl; [reflexivity |].
  destruct e; simpl; rewrite IH; reflexivity.
Qed.

Lemma accepted_all (produce_raises : nat -> bool) (l : list Reading) :
  forall n,
    (forall j, (j < List.length l)%nat -> produce_raises (n + j)%nat = false) ->
    accepted produce_raises n l = l.
Proof.
  induction l as [| x r IH]; intros n H; simpl; [reflexivity |].
  rewrite <- (Nat.add_0_r n) at 1. rewrite (H 0%nat) by (simpl; lia).
  f_equal. apply IH. intros j Hj.
  replace (S n + j)%nat with (n + S j)%nat by lia. apply H. simpl. lia.
Qed.

Lemma accepted_length (produce_raises : nat -> bool) (l : list Reading) :
  forall n, (List.length (accepted produce_raises n l) <= List.length l)%nat.
Proof.
  induction l as [| x r IH]; intros n; simpl; [lia |].
  specialize (IH (S n)). destruct (produce_raises n); simpl; lia.
Qed.

Section BulkDelivery.

Variables (produce_raises flush_raises : nat -> bool).
Variable topic : string.

(** One attempt when [flush] never raises: the producer is called once,
    an error is logged exactly when [produce] raised, and the periodic
    flush is made exactly when [produce] succeeded at a multiple of 1000. *)
Lemma publish_one_exact (i : nat) (x : Reading) (w : world) :
  (forall n, flush_raises n = false) ->
  exists w',
    publish_one produce_raises flush_raises topic tt (i, x) w = (Ok tt, w')
    /\ n_produce w' = S (n_produce w)
    /\ errors_logged (trace w')
       = (errors_logged (trace w)
          + if produce_raises (n_produce w) then 1 else 0)%nat
    /\ n_flush w'
       = (n_flush w
          + if produce_raises (n_produce w) then 0
            else if (i mod 1000 =? 0)%nat then 1 else 0)%nat.
Proof.
  intros Hf.
  unfold publish_one, try_except, produce, flush, log_error, bind, when.
  generalize (i mod 1000 =? 0)%nat. intros c.
  destruct (produce_raises (n_produce w)) eqn:P; simpl;
    [| destruct c; simpl; [rewrite Hf |]];
    eexists; (split; [reflexivity |]); simpl;
    rewrite ?errors_logged_app; simpl; repeat split; lia.
Qed.

Lemma bulk_loop_counts (l : list Reading) :
  (forall n, flush_raises n = false) ->
  forall (s : nat) (w : world),
  exists w',
    for_each (combine (seq s (List.length l)) l)
      (publish_one produce_raises flush_raises topic) tt w = (Ok tt, w')
    /\ (errors_logged (trace w') + List.length (accepted produce_raises (n_produce w) l)
        = errors_logged (trace w) + List.length l)%nat
    /\ ((forall j, (j < List.length l)%nat ->
                   produce_raises (n_produce w + j)%nat = false) ->
        n_flush w'
        = (n_flush w + List.length (flush_points s (List.length l)))%nat).
Proof.
  intros Hf. induction l as [| x r IH]; intros s w.
  - exists w. simpl. repeat split; auto.
  - destruct (publish_one_exact s x w Hf) as (w1 & E1 & N1 & L1 & F1).
    destruct (IH (S s) w1) as (w' & E & L & F).
    exists w'. simpl for_each. rewrite (bind_Ok _ _ _ _ _ E1), E.
    split; [reflexivity |]. split.
    + rewrite N1 in L. simpl accepted. simpl List.length.
      destruct (produce_raises (n_produce w)); simpl List.length; lia.
    + intros H.
      assert (produce_raises (n_produce w) = false) as P0.
      { rewrite <- (Nat.add_0_r (n_produce w)). apply H. simpl. lia. }
      rewrite F.
      * rewrite F1, P0. unfold flush_points.
        change (seq s (List.length (x :: r)))
          with (s :: seq (S s) (List.length r)).
        cbn [filter].
        destruct (s mod 1000 =? 0)%nat; cbn [List.length]; lia.
      * intros j Hj. rewrite N1.
        replace (S (n_produce w) + j)%nat with (n_produce w + S j)%nat by lia.
        apply H. simpl. lia.
Qed.

End BulkDelivery.


(** X8. Bulk delivery calls [produce] exactly once for every data point,
    in the order of the list, whatever raises: the payloads it has
    delivered are the data points whose call did not raise, in order.  It
    can only end with the error of the final [flush]; when [flush] never
    raises it ends normally and has logged one error per data point that
    was not delivered.  When no call of [produce] raises every data point
    is delivered. *)
Theorem X8_bulk_delivery_survives_errors :
  forall (produce_raises flush_raises : nat -> bool)
         (data_points : list Reading) (topic : string) (w : world),
  exists r w',
    publish_to_kafka produce_raises flush_raises data_points topic w = (r, w')
    /\ n_produce w' = (n_produce w + List.length data_points)%nat
    /\ payloads (trace w')
       = (payloads (trace w)
          ++ accepted produce_raises (n_produce w) data_points)%list
    /\ (r = Ok tt \/ r = Raise KafkaException)
    /\ ((forall n, flush_raises n = false) ->
        r = Ok tt
        /\ (errors_logged (trace w')
            + List.length (accepted produce_raises (n_produce w) data_points)
            = errors_logged (trace w) + List.length data_points)%nat)
    /\ ((forall j, (j < List.length data_points)%nat ->
                   produce_raises (n_produce w + j)%nat = false) ->
        accepted produce_raises (n_produce w) data_points = data_points).
Proof.
  intros.
  destruct (bulk_loop produce_raises flush_raises topic data_points 0 w)
    as (w1 & E & N & P).
  unfold publish_to_kafka, enumerate. rewrite (bind_Ok _ _ _ _ _ E).
  unfold flush. destruct (flush_raises (n_flush w1)) eqn:Fl.
  - do 2 eexists. split; [reflexivity |]. simpl.
    split; [exact N |]. split; [exact P |]. split; [auto |].
    split; [| apply accepted_all].
    intros Hf. rewrite Hf in Fl. discriminate.
  - do 2 eexists. split; [reflexivity |]. simpl.
    split; [exact N |].
    split; [rewrite payloads_app; simpl; rewrite app_nil_r; exact P |].
    split; [auto |]. split; [| apply accepted_all].
    intros Hf. split; [reflexivity |].
    destruct (bulk_loop_counts produce_raises flush_raises topic data_points
                Hf 0 w) as (w2 & E2 & L & _).
    rewrite E in E2. injection E2 as <-.
    rewrite errors_logged_app. simpl. lia.
Qed.

Lemma X8_witness :
  exists w',
    publish_to_kafka first_call never
      [reading_at 1000; reading_at 2000; reading_at 3000]
      "facilis.raw.timeseries" initial_world = (Ok tt, w')
    /\ payloads (trace w') = [reading_at 2000; reading_at 3000]
    /\ errors_logged (trace w') = 1%nat.
Proof.
  destruct (X8_bulk_delivery_survives_errors first_call never
              [reading_at 1000; reading_at 2000; reading_at 3000]
              "facilis.raw.timeseries" initial_world)
    as (r & w' & E & _ & P & _ & Hf & _).
  destruct (Hf (fun n => eq_refl)) as [-> L].
  exists w'. split; [exact E |]. split; [exact P |].
  simpl in L. lia.
Defined.



(** ** More on paced delivery *)

Lemma insert_by_ts_stable (t : Z) (x : Reading) (l : list Reading) :
  filter (fun r => (ts r =? t)%Z) (insert_by_ts x l)
  = filter (fun r => (ts r =? t)%Z) (x :: l).
Proof.
  induction l as [| y r IH]; [reflexivity |].
  cbn [insert_by_ts]. destruct (ts x <=? ts y)%Z eqn:E; [reflexivity |].
  apply Z.leb_gt in E. cbn [filter] in *. rewrite IH.
  destruct (ts x =? t)%Z eqn:Ex; [| reflexivity].
  apply Z.eqb_eq in Ex.
  assert ((ts y =? t)%Z = false) as -> by (apply Z.eqb_neq; lia).
  reflexivity.
Qed.

(** Sorting keeps the data points of one timestamp in the order they had. *)
Lemma sort_by_ts_stable (t : Z) (l : list Reading) :
  filter (fun r => (ts r =? t)%Z) (sort_by_ts l)
  = filter (fun r => (ts r =? t)%Z) l.
Proof.
  induction l as [| x r IH]; [reflexivity |].
  cbn [sort_by_ts]. rewrite insert_by_ts_stable. cbn [filter]. rewrite IH.
  reflexivity.
Qed.

Lemma pause_sleeps (last_ts : option Z) (x : Reading) :
  Forall (fun s => 0 < s /\ s <= 60) (sleeps (pause last_ts x)).
Proof.
  unfold pause. destruct last_ts as [last |]; [| constructor].
  destruct (truthy_Z last); simpl; [| constructor].
  destruct (Qltb 0 (inject_Z (ts x - last) / 1000)) eqn:E; simpl; [| constructor].
  apply Qltb_lt in E. constructor; [| constructor].
  destruct (py_min_cases (inject_Z (ts x - last) / 1000) 60)
    as [[H ->] | [H ->]]; lra.
Qed.

Lemma paced_events_sleeps (topic : string) (l : list Reading) :
  forall last_ts,
    Forall (fun s => 0 < s /\ s <= 60) (sleeps (paced_events topic last_ts l)).
Proof.
  induction l as [| x r IH]; intros last_ts; cbn [paced_events].
  - constructor.
  - rewrite sleeps_app. apply Forall_app. split; [apply pause_sleeps |].
    cbn [sleeps]. apply IH.
Qed.

(** X10. When no call of [produce] raises, the real-time branch ends
    normally after calling [produce] once per data point; the payloads it
    has delivered are the accumulated data points rearranged in ascending
    order of timestamp, and data points with the same timestamp are
    delivered in the order in which they were accumulated. *)
Theorem X10_paced_delivery_order :
  forall (produce_raises : nat -> bool) (topic : string)
         (data_points : list Reading) (w : world),
    (forall j, (j < List.length data_points)%nat ->
               produce_raises (n_produce w + j)%nat = false) ->
    exists delivered w',
      publish_real_time produce_raises data_points topic w = (Ok tt, w')
      /\ payloads (trace w') = (payloads (trace w) ++ delivered)%list
      /\ sorted_by_ts delivered
      /\ Permutation data_points delivered
      /\ (forall t, filter (fun r => (ts r =? t)%Z) delivered
                    = filter (fun r => (ts r =? t)%Z) data_points).
Proof.
  intros produce_raises topic data_points w H.
  destruct (publish_real_time_ok produce_raises topic data_points w H)
    as (w' & E & T).
  exists (sort_by_ts data_points), w'. split; [exact E |].
  split; [rewrite T, payloads_app, payloads_paced_events; reflexivity |].
  split; [apply sort_by_ts_sorted |].
  split; [apply sort_by_ts_perm |].
  intros t. apply sort_by_ts_stable.
Qed.

Lemma X10_witness :
  exists w',
    publish_real_time never
      [reading_at 3000; mkReading 1000 "B" "x" None NO_DATA; reading_at 1000]
      "facilis.raw.timeseries" initial_world = (Ok tt, w')
    /\ payloads (trace w')
       = [mkReading 1000 "B" "x" None NO_DATA; reading_at 1000; reading_at 3000].
Proof.
  destruct (X10_paced_delivery_order never "facilis.raw.timeseries"
              [reading_at 3000; mkReading 1000 "B" "x" None NO_DATA;
               reading_at 1000]
              initial_world (fun j _ => eq_refl))
    as (delivered & w' & E & P & _).
  exists w'. split; [exact E |].
  vm_compute in E. injection E as <-. reflexivity.
Defined.

(** X11. In the real-time branch every pause is longer than 0 and at
    most 60 seconds; the time slept in a run in which no call raises is at
    most the sum of [min(60, dt / 1000)] over the consecutive pairs of the
    sorted data points, and is equal to it when no data point has
    timestamp 0. *)
Theorem X11_pauses_bounded :
  forall (produce_raises : nat -> bool) (topic : string)
         (data_points : list Reading) (w : world),
    (forall j, (j < List.length data_points)%nat ->
               produce_raises (n_produce w + j)%nat = false) ->
    exists es w',
      publish_real_time produce_raises data_points topic w = (Ok tt, w')
      /\ trace w' = (trace w ++ es)%list
      /\ Forall (fun s => 0 < s /\ s <= 60) (sleeps es)
      /\ total_sleep es <= ideal_total (sort_by_ts data_points)
      /\ (Forall (fun r => ts r <> 0%Z) data_points ->
          total_sleep es == ideal_total (sort_by_ts data_points)).
Proof.
  intros produce_raises topic data_points w H.
  destruct (publish_real_time_ok produce_raises topic data_points w H)
    as (w' & E & T).
  destruct (real_time_delivery topic data_points) as (_ & _ & _ & B & X).
  exists (paced_events topic None (sort_by_ts data_points)), w'.
  split; [exact E |]. split; [exact T |].
  split; [apply paced_events_sleeps |]. auto.
Qed.

Lemma X11_witness :
  exists es w',
    publish_real_time never
      [reading_at 200000; reading_at 1000; reading_at 6000]
      "facilis.raw.timeseries" initial_world = (Ok tt, w')
    /\ trace w' = es
    /\ total_sleep es == 65.
Proof.
  destruct (X11_pauses_bounded never "facilis.raw.timeseries"
              [reading_at 200000; reading_at 1000; reading_at 6000]
              initial_world (fun j _ => eq_refl))
    as (es & w' & E & T & _ & _ & X).
  exists es, w'. split; [exact E |]. split; [exact T |].
  rewrite X; [reflexivity |].
  repeat constructor; discriminate.
Defined.

(** ** The fleet *)

Section Fleet.

Variables (np_pi : Q) (np_sin : Q -> Q) (tape : nat -> Q).




End Fleet.



(** ** Whole runs *)

Section Runs.

Variables (np_pi : Q) (np_sin : Q -> Q) (tape : nat -> Q).
Variables (produce_raises flush_raises : nat -> bool).



End Runs.







(** ** The window of a run *)

Lemma range_bounds (n i : Z) : In i (range n) -> (0 <= i < n)%Z.
Proof.
  unfold range. intros H. apply in_map_iff in H.
  destruct H as (k & <- & Hk). apply in_seq in Hk. lia.
Qed.


(** Every step of a run starts before the end of the window. *)
Lemma step_within_window (duration_hours interval i : Z) :
  (0 < interval)%Z -> In i (range (duration_hours * 3600 / interval)) ->
  (i * interval < duration_hours * 3600)%Z.
Proof.
  intros Hpos Hi. apply range_bounds in Hi.
  pose proof (Z.mul_div_le (duration_hours * 3600) interval Hpos). nia.
Qed.

Lemma Forall2_concat_In {A B} (P : A -> list B -> Prop) (R : B -> Prop)
    (l : list A) (chunks : list (list B)) :
  Forall2 P l chunks ->
  (forall i rs, In i l -> P i rs -> Forall R rs) ->
  Forall R (List.concat chunks).
Proof.
  induction 1 as [| i rs l chunks H _ IH]; intros HR; simpl; [constructor |].
  apply Forall_app. split.
  - apply (HR i rs); [left; reflexivity | exact H].
  - apply IH. intros j rs' Hj. apply HR. right. exact Hj.
Qed.

(** X16. A failure whose onset is not before the end of the generated
    window is never applied: when [failure_start_hours] is at least
    [duration_hours] and the interval is positive, every value a run
    returns lies within the range of its sensor, as for a healthy asset. *)
Theorem X16_onset_after_the_window_is_never_applied :
  forall (np_pi : Q) (np_sin : Q -> Q) (tape : nat -> Q) (asset : AssetConfig)
         (fsh start_time : Q) (duration_hours interval : Z) (w w' : world)
         (out : list Reading),
    failure_start_hours asset = Some fsh ->
    inject_Z duration_hours <= fsh ->
    (0 < interval)%Z ->
    generate_asset_data np_pi np_sin tape asset start_time duration_hours
      interval w = (Ok out, w') ->
    Forall (within_range (asset_class asset)) out.
Proof.
  intros np_pi np_sin tape asset fsh start_time duration_hours interval w w'
    out Hfsh Hlate Hpos E.
  assert (interval <> 0%Z) as H0 by lia.
  destruct (Z_le_gt_dec (duration_hours * 3600 / interval) 0) as [Hn | Hp].
  { rewrite generate_no_points in E by assumption.
    injection E as <- _. constructor. }
  destruct (Z_lt_ge_dec (duration_hours * 3600 / interval) 10) as [Hs | Hl].
  { destruct (generate_few_points np_pi np_sin tape asset start_time
                duration_hours interval w H0) as (w1 & E1 & _); [lia |].
    rewrite E1 in E. discriminate. }
  destruct (generate_chunks np_pi np_sin tape asset start_time duration_hours
              interval w H0) as (chunks & w1 & E1 & F & _); [lia |].
  rewrite E1 in E. injection E as <- _.
  apply (Forall2_concat_In _ _ _ _ F). intros i rs Hi Hrs.
  eapply step_output_within_range; [| exact Hrs].
  apply (failure_inactive_before_onset asset _ fsh); [exact Hfsh |].
  pose proof (step_within_window duration_hours interval i Hpos Hi) as Hlt.
  assert (inject_Z (i * interval) < inject_Z (duration_hours * 3600)) as Hq
    by (rewrite <- Zlt_Qlt; exact Hlt).
  rewrite (inject_Z_mult duration_hours 3600) in Hq.
  change (inject_Z 3600) with 3600 in Hq. clear - Hq Hlate. lra.
Qed.

Lemma X16_witness :
  exists out w',
    generate_asset_data 3 flat calm_tape late_motor epoch_2023 168 3600
      initial_world = (Ok out, w')
    /\ Forall (within_range "MOTOR") out.
Proof.
  destruct (generate_asset_data 3 flat calm_tape late_motor epoch_2023 168 3600
              initial_world) as [[out | e] w'] eqn:E.
  - exists out, w'. split; [reflexivity |].
    apply (X16_onset_after_the_window_is_never_applied 3 flat calm_tape
             late_motor 168 epoch_2023 168%Z 3600%Z initial_world w' out).
    + reflexivity.
    + apply Qle_bool_iff. reflexivity.
    + reflexivity.
    + exact E.
  - vm_compute in E. discriminate.
Defined.

(** ** Order of the generated data points *)








(** ** Consumption of the random stream *)

Lemma corrupted_app (a b : list Reading) :
  corrupted (a ++ b) = (corrupted a + corrupted b)%nat.
Proof. unfold corrupted. rewrite filter_app, length_app. reflexivity. Qed.

Lemma length_of_keys {V W} (d : dict V) (d' : dict W) :
  keys d = keys d' -> List.length d = List.length d'.
Proof.
  unfold keys. intros H.
  rewrite <- (length_map fst d), <- (length_map fst d'), H. reflexivity.
Qed.

Section Draws.

Variables (np_pi : Q) (np_sin : Q -> Q) (tape : nat -> Q).

(** A data point takes the draw of [random.random()], and the draw of
    [random.choice] when it is corrupted. *)
Lemma data_point_for_draws (asset : AssetConfig) (t : Q) (acc : list Reading)
    (item : string * Q) (w : world) :
  exists r w',
    data_point_for tape asset t acc item w = (Ok (acc ++ [r])%list, w')
    /\ rng_pos w' = (rng_pos w + 1 + corrupted [r])%nat.
Proof.
  destruct item as [sensor v]. unfold data_point_for.
  unfold random_random, random_choice, draw, bind, ret. simpl.
  destruct (Qltb (tape (rng_pos w)) 0.01).
  - match goal with
    | |- context [Z.to_nat ?x] => destruct (Z.to_nat x) as [| [| [| [| k]]]]
    end;
      eexists; eexists; (split; [reflexivity |]); unfold corrupted; simpl; lia.
  - eexists; eexists; (split; [reflexivity |]); unfold corrupted; simpl; lia.
Qed.

Lemma data_points_for_draws (asset : AssetConfig) (t : Q) (items : dict Q) :
  forall (acc : list Reading) (w : world),
  exists rs w',
    data_points_for tape asset t items acc w = (Ok (acc ++ rs)%list, w')
    /\ List.length rs = List.length items
    /\ rng_pos w' = (rng_pos w + List.length rs + corrupted rs)%nat.
Proof.
  unfold data_points_for. induction items as [| item r IH]; intros acc w.
  - exists [], w. simpl. rewrite app_nil_r. split; [reflexivity |].
    split; [reflexivity |]. unfold corrupted. simpl. lia.
  - destruct (data_point_for_draws asset t acc item w) as (x & w1 & E1 & R1).
    destruct (IH (acc ++ [x])%list w1) as (rs & w2 & E2 & L2 & R2).
    exists (x :: rs), w2. simpl for_each.
    rewrite (bind_Ok _ _ _ _ _ E1), E2, <- app_assoc.
    split; [reflexivity |]. split; [simpl; lia |].
    change (x :: rs) with ([x] ++ rs)%list. rewrite corrupted_app.
    rewrite length_app. simpl List.length. lia.
Qed.

(** The models other than cavitation take no draw. *)
Lemma apply_draws (f : FailureMode) (t : Q) (l l' : loc) (w w' : world) :
  fm_class f <> CavitationFailure ->
  apply tape f t l w = (Ok l', w') -> rng_pos w' = rng_pos w.
Proof.
  intros Hc. unfold apply. destruct (fm_class f).
  - rewrite FailureMode_apply_eq. intros E. injection E as _ <-. reflexivity.
  - rewrite BearingWearFailure_apply_eq. intros E. injection E as _ <-.
    reflexivity.
  - rewrite MisalignmentFailure_apply_eq. intros E. injection E as _ <-.
    reflexivity.
  - congruence.
Qed.

Lemma failure_active_instance (asset : AssetConfig) (fm : option FailureMode)
    (i interval : Z) (f : FailureMode) (fsh : Q) :
  failure_active asset fm i interval = Some (f, fsh) -> fm = Some f.
Proof.
  unfold failure_active. destruct fm as [g |]; [| discriminate].
  destruct (failure_start_hours asset) as [h |]; [| discriminate].
  destruct (truthy_Q h && Qle_bool (h * 3600) (inject_Z (i * interval)));
    [| discriminate].
  intros E. injection E as -> _. reflexivity.
Qed.

Lemma generate_step_draws (asset : AssetConfig) (fm : option FailureMode)
    (start_time : Q) (interval total_points : Z) (acc : list Reading)
    (i : Z) (w : world) :
  (forall f, fm = Some f -> fm_class f <> CavitationFailure) ->
  (total_points / 10 <> 0)%Z ->
  exists rs w',
    generate_step np_pi np_sin tape asset fm start_time interval total_points
      acc i w = (Ok (acc ++ rs)%list, w')
    /\ rng_pos w' = (rng_pos w + 2 * List.length rs + corrupted rs)%nat.
Proof.
  intros Hfm Htp. apply Z.eqb_neq in Htp.
  set (t := start_time + inject_Z (i * interval)).
  destruct (generate_base_values_spec np_pi np_sin tape (asset_class asset) t w)
    as (base_values & E0 & K & _).
  set (w1 := set_rng (rng_pos w + List.length (config_of (asset_class asset))) w)
    in *.
  assert (exists adjusted w2,
            match failure_active asset fm i interval with
            | Some (f, fsh) =>
                (l <- alloc base_values ;;
                 l' <- apply tape f (t - (start_time + fsh * 3600)) l ;;
                 deref l')
            | None => ret base_values
            end w1 = (Ok adjusted, w2)
            /\ List.length adjusted = List.length base_values
            /\ rng_pos w2 = rng_pos w1)
    as (adjusted & w2 & E1 & L1 & R1).
  { destruct (failure_active asset fm i interval) as [[f fsh] |] eqn:FA.
    - rewrite (bind_Ok _ _ _ _ _ (alloc_eq base_values w1)).
      destruct (apply_spec tape f (t - (start_time + fsh * 3600)) (top w1)
                  (push base_values w1)) as (l' & w2 & E & (Ka & _) & _).
      rewrite (bind_Ok _ _ _ _ _ E). exists (obj l' w2), w2.
      split; [reflexivity |]. rewrite obj_top in Ka.
      split; [apply length_of_keys; exact Ka |].
      apply (apply_draws f _ _ _ _ _
               (Hfm f (failure_active_instance _ _ _ _ _ _ FA)) E).
    - exists base_values, w1. auto. }
  destruct (data_points_for_draws asset t adjusted acc w2)
    as (rs & w3 & E2 & L2 & R2).
  exists rs, w3. split.
  - unfold generate_step. fold t.
    rewrite (bind_Ok _ _ _ _ _ E0), (bind_Ok _ _ _ _ _ E1), (bind_Ok _ _ _ _ _ E2).
    unfold py_mod. rewrite Htp. reflexivity.
  - rewrite R2, R1. unfold w1. cbn [rng_pos set_rng].
    rewrite <- (length_of_keys _ _ K), <- L1, <- L2. lia.
Qed.

Lemma loop_draws (asset : AssetConfig) (fm : option FailureMode)
    (start_time : Q) (interval total_points : Z) :
  (forall f, fm = Some f -> fm_class f <> CavitationFailure) ->
  (total_points / 10 <> 0)%Z ->
  forall (xs : list Z) (acc : list Reading) (w : world),
  exists out w',
    for_each xs
      (generate_step np_pi np_sin tape asset fm start_time interval total_points)
      acc w
    = (Ok (acc ++ out)%list, w')
    /\ rng_pos w' = (rng_pos w + 2 * List.length out + corrupted out)%nat.
Proof.
  intros Hfm Htp. induction xs as [| x r IH]; intros acc w.
  - exists [], w. simpl. rewrite app_nil_r. split; [reflexivity |].
    unfold corrupted. simpl. lia.
  - destruct (generate_step_draws asset fm start_time interval total_points
                acc x w Hfm Htp) as (rs & w1 & E1 & R1).
    destruct (IH (acc ++ rs)%list w1) as (out & w' & E & R).
    exists (rs ++ out)%list, w'. simpl for_each.
    rewrite (bind_Ok _ _ _ _ _ E1), E, <- app_assoc.
    split; [reflexivity |].
    rewrite corrupted_app, length_app. lia.
Qed.

End Draws.

(** X18. Unless the asset carries a cavitation instance, a run that
    returns has consumed two random draws per data point (the noise of the
    sensor and the quality draw) and one more for every data point whose
    quality is not [GOOD] (the choice of the quality): the bearing-wear
    and misalignment models and the base class draw nothing. *)
Theorem X18_draws_per_data_point :
  forall (np_pi : Q) (np_sin : Q -> Q) (tape : nat -> Q) (asset : AssetConfig)
         (start_time : Q) (duration_hours interval : Z) (w w' : world)
         (out : list Reading),
    (forall f, init_failure_mode asset = Some f ->
               fm_class f <> CavitationFailure) ->
    generate_asset_data np_pi np_sin tape asset start_time duration_hours
      interval w = (Ok out, w') ->
    rng_pos w' = (rng_pos w + 2 * List.length out + corrupted out)%nat.
Proof.
  intros np_pi np_sin tape asset start_time duration_hours interval w w' out
    Hfm E.
  destruct (Z.eq_dec interval 0) as [-> | H0].
  { rewrite generate_zero_interval in E. discriminate. }
  destruct (Z_le_gt_dec (duration_hours * 3600 / interval) 0) as [Hn | Hp].
  { rewrite generate_no_points in E by assumption.
    injection E as <- <-. unfold corrupted. simpl. lia. }
  destruct (Z_lt_ge_dec (duration_hours * 3600 / interval) 10) as [Hs | Hl].
  { destruct (generate_few_points np_pi np_sin tape asset start_time
                duration_hours interval w H0) as (w1 & E1 & _); [lia |].
    rewrite E1 in E. discriminate. }
  rewrite generate_unfold in E by exact H0.
  destruct (loop_draws np_pi np_sin tape asset (init_failure_mode asset)
              start_time interval (duration_hours * 3600 / interval) Hfm)
    with (xs := range (duration_hours * 3600 / interval))
         (acc := @nil Reading) (w := w) as (out' & w1 & E1 & R).
  { intros C. apply Z.div_small_iff in C; lia. }
  rewrite E1 in E. injection E as <- <-. exact R.
Qed.

Lemma X18_witness :
  exists out w',
    generate_asset_data 3 flat calm_tape pump_C epoch_2023 10 3600 initial_world
    = (Ok out, w')
    /\ rng_pos w' = (2 * List.length out + corrupted out)%nat.
Proof.
  destruct (generate_asset_data 3 flat calm_tape pump_C epoch_2023 10 3600
              initial_world) as [[out | e] w'] eqn:E.
  - exists out, w'. split; [reflexivity |].
    apply (X18_draws_per_data_point 3 flat calm_tape pump_C epoch_2023
             10%Z 3600%Z initial_world w' out); [| exact E].
    intros f Hf. vm_compute in Hf. injection Hf as <-. discriminate.
  - vm_compute in E. discriminate.
Defined.

(** ** The demo fleet *)


